(** * pytube.contrib.channel: video extraction from a channel page

    A shallow embedding of [Channel._extract_videos] and
    [Channel._build_continuation_url] (src/pytube/contrib/channel.py),
    with the part of Python's semantics they rest on: subscripting of the
    values [json.loads] produces, iteration, the exceptions both raise and
    the [try]/[except] blocks that catch some of them; then of the rest
    of the class: [__init__], the [html_url] setter and the pages it
    moves between, the [html] and [playlists_html] properties, and the
    properties that read the channel's metadata. *)

From Stdlib Require Import List String Ascii ZArith Bool Lia.
From Stdlib Require Import Floats.
Import ListNotations.

Set Warnings "-register-all".
Local Open Scope string_scope.
Local Open Scope list_scope.

(** ** Python values *)

(** What [json.loads] returns: [None], [bool], [int], [float], [str],
    [list] and [dict] with [str] keys.  A [dict] keeps its keys in
    insertion order; it is an association list, whose keys are distinct
    when it comes from [json.loads].  A [str] is held as its UTF-8
    text. *)
Inductive json : Type :=
| JNull
| JBool (b : bool)
| JInt (n : Z)
| JFloat (f : float)
| JStr (s : string)
| JList (items : list json)
| JDict (fields : list (string * json)).

(** The exceptions the modelled code can raise. *)
Inductive exn : Type := KeyError | IndexError | TypeError | AttributeError.

(** The outcome of evaluating an expression: a value, or a raised
    exception. *)
Inductive res (A : Type) : Type :=
| Ok (a : A)
| Raise (e : exn).
Arguments Ok {A} a.
Arguments Raise {A} e.

Definition bind {A B : Type} (r : res A) (k : A -> res B) : res B :=
  match r with
  | Ok a => k a
  | Raise e => Raise e
  end.

Notation "x <- r ;; k" := (bind r (fun x => k))
  (at level 61, r at next level, right associativity).
Notation "' pat <- r ;; k" := (bind r (fun x => match x with pat => k end))
  (at level 61, pat pattern, r at next level, right associativity).

(** [except (KeyError, IndexError, TypeError)], as at lines 235, 243, 252
    and 274. *)
Definition lookup_error (e : exn) : bool :=
  match e with
  | KeyError | IndexError | TypeError => true
  | AttributeError => false
  end.

(** [except (KeyError, IndexError)], as at line 261. *)
Definition key_or_index_error (e : exn) : bool :=
  match e with
  | KeyError | IndexError => true
  | TypeError | AttributeError => false
  end.

(** A subscript: a [str] literal or an [int] literal. *)
Inductive key : Type :=
| K (name : string)
| I (index : Z).

Fixpoint assoc (name : string) (fields : list (string * json)) : option json :=
  match fields with
  | [] => None
  | (k, v) :: rest => if String.eqb k name then Some v else assoc name rest
  end.

(** [seq[i]] for an [int] index: a negative index counts from the end,
    an index outside the sequence raises [IndexError]. *)
Definition py_index {A : Type} (l : list A) (i : Z) : res A :=
  let j := if (i <? 0)%Z then (i + Z.of_nat (List.length l))%Z else i in
  if (j <? 0)%Z then Raise IndexError
  else match nth_error l (Z.to_nat j) with
       | Some a => Ok a
       | None => Raise IndexError
       end.

(** A byte of the form 10xxxxxx, which continues a character. *)
Definition is_continuation_byte (c : ascii) : bool :=
  match c with
  | Ascii _ _ _ _ _ _ b6 b7 => b7 && negb b6
  end.

(** The text read from its end: the continuation bytes that still
    wait for their first byte, and the characters after them. *)
Fixpoint utf8_split (s : string) : string * list string :=
  match s with
  | EmptyString => (EmptyString, [])
  | String c rest =>
      let (pending, done) := utf8_split rest in
      if is_continuation_byte c then (String c pending, done)
      else (EmptyString, String c pending :: done)
  end.

(** The characters of a [str], which Python indexes, counts and
    iterates: each is a first byte with the continuation bytes that
    follow it. *)
Definition characters (s : string) : list string :=
  match utf8_split s with
  | (EmptyString, done) => done
  | (pending, done) => pending :: done
  end.

Definition chars (s : string) : list json := map JStr (characters s).

(** [v[k]]: [dict.__getitem__] raises [KeyError] on a key it does not
    hold (an [int] is never a key of a JSON object), [list] and [str]
    raise [TypeError] on a [str] index and [IndexError] on an [int] out
    of range, and [None], [bool], [int] and [float] are not
    subscriptable. *)
Definition getitem (v : json) (k : key) : res json :=
  match v, k with
  | JDict fields, K name =>
      match assoc name fields with
      | Some x => Ok x
      | None => Raise KeyError
      end
  | JDict _, I _ => Raise KeyError
  | JList items, I i => py_index items i
  | JList _, K _ => Raise TypeError
  | JStr s, I i => py_index (chars s) i
  | JStr _, K _ => Raise TypeError
  | _, _ => Raise TypeError
  end.

(** A chain of subscripts [v[k1][k2]...], evaluated left to right. *)
Fixpoint getpath (v : json) (ks : list key) : res json :=
  match ks with
  | [] => Ok v
  | k :: rest => x <- getitem v k ;; getpath x rest
  end.

(** The items a [for] loop over [v] visits: the elements of a [list],
    the keys of a [dict], the characters of a [str]; the other values
    are not iterable. *)
Definition py_iter (v : json) : res (list json) :=
  match v with
  | JList items => Ok items
  | JDict fields => Ok (map (fun kv => JStr (fst kv)) fields)
  | JStr s => Ok (chars s)
  | _ => Raise TypeError
  end.

(** [seq[:-1]]: the sequence without its last element.  Line 260 runs
    once [videos[-1]] has answered a [str] subscript chain, so only a
    [list] reaches it; a value that takes no slice raises. *)
Definition drop_last (v : json) : res json :=
  match v with
  | JList items => Ok (JList (removelast items))
  | JStr s => Ok (JStr (String.concat "" (removelast (characters s))))
  | _ => Raise TypeError
  end.

(** [s.rsplit(sep, maxsplit=1)] for a one-character separator: [s] cut
    at its last [sep], or [s] alone when it holds none. *)
Fixpoint cut_at_last (sep : ascii) (s : string) : option (string * string) :=
  match s with
  | EmptyString => None
  | String c rest =>
      match cut_at_last sep rest with
      | Some (before, after) => Some (String c before, after)
      | None => if Ascii.eqb c sep then Some (EmptyString, rest) else None
      end
  end.

Definition rsplit1 (sep : ascii) (s : string) : list string :=
  match cut_at_last sep s with
  | Some (before, after) => [before; after]
  | None => [s]
  end.

(** [v.rsplit("/", maxsplit=1)[-1]]: only a [str] has the method. *)
Definition last_segment (v : json) : res string :=
  match v with
  | JStr s => py_index (rsplit1 "/"%char s) (-1)
  | _ => Raise AttributeError
  end.

(** ** The Channel object *)

(** The attributes [Channel.__init__] sets (lines 23-44), and
    [yt_api_key], which [Playlist] provides and
    [_build_continuation_url] reads.  [_visitor_data] starts as [None]
    ([JNull]) and later holds whatever value the page carries. *)
Record Channel : Type := mkChannel {
  channel_uri : string;
  channel_url : string;
  videos_url : string;
  shorts_url : string;
  live_url : string;
  playlists_url : string;
  community_url : string;
  featured_channels_url : string;
  about_url : string;
  _html_url : string;
  _visitor_data : json;
  _playlists_html : option string;
  _community_html : option string;
  _featured_channels_html : option string;
  _about_html : option string;
  yt_api_key : string
}.

(** The [html_url] property (lines 76-82). *)
Definition html_url (self : Channel) : string := _html_url self.

(** [self._visitor_data = v] (line 231). *)
Definition set_visitor_data (v : json) (self : Channel) : Channel :=
  {| channel_uri := channel_uri self;
     channel_url := channel_url self;
     videos_url := videos_url self;
     shorts_url := shorts_url self;
     live_url := live_url self;
     playlists_url := playlists_url self;
     community_url := community_url self;
     featured_channels_url := featured_channels_url self;
     about_url := about_url self;
     _html_url := _html_url self;
     _visitor_data := v;
     _playlists_html := _playlists_html self;
     _community_html := _community_html self;
     _featured_channels_html := _featured_channels_html self;
     _about_html := _about_html self;
     yt_api_key := yt_api_key self |}.

(** What a call leaves behind: the value returned or the exception
    raised, the object after the call, and the records the call passed
    to [logger.info], oldest first. *)
Record outcome : Type := mkOutcome {
  returned : res (list string * json);
  self_after : Channel;
  logged : list exn
}.

(** ** _build_continuation_url (lines 162-194) *)

Definition client_version : string := "2.20200720.00.02".

Definition _build_continuation_url (self : Channel) (continuation : json)
  : string * list (string * string) * json :=
  (("https://www.youtube.com/youtubei/v1/browse?key=" ++ yt_api_key self)%string,
   [("X-YouTube-Client-Name", "1");
    ("X-YouTube-Client-Version", client_version)],
   JDict
     [("continuation", continuation);
      ("context",
       JDict
         [("client",
           JDict
             [("clientName", JStr "WEB");
              ("visitorData", _visitor_data self);
              ("clientVersion", JStr client_version)])])]).

(** ** Locating the content list (lines 205-254) *)

Definition tabs_path : list key :=
  [K "contents"; K "twoColumnBrowseResultsRenderer"; K "tabs"].

Definition tab_url_path : list key :=
  [K "tabRenderer"; K "endpoint"; K "commandMetadata";
   K "webCommandMetadata"; K "url"].

Definition grid_path : list key :=
  [K "tabRenderer"; K "content"; K "richGridRenderer"; K "contents"].

Definition visitor_data_path : list key :=
  [K "responseContext"; K "webResponseContextExtensionData";
   K "ytConfigData"; K "visitorData"].

Definition wrapped_path : list key :=
  [I 1; K "response"; K "onResponseReceivedActions"; I 0;
   K "appendContinuationItemsAction"; K "continuationItems"].

Definition bare_path : list key :=
  [K "onResponseReceivedActions"; I 0;
   K "appendContinuationItemsAction"; K "continuationItems"].

(** The loop of lines 210-222: [active_tab] starts as [{}]; the first
    tab whose url ends in the same segment as [self.html_url] replaces
    it and ends the loop. *)
Fixpoint find_active_tab (self : Channel) (tabs : list json) : res json :=
  match tabs with
  | [] => Ok (JDict [])
  | tab :: rest =>
      tab_url <- getpath tab tab_url_path ;;
      wanted <- last_segment tab_url ;;
      here <- last_segment (JStr (html_url self)) ;;
      if String.eqb wanted here then Ok tab else find_active_tab self rest
  end.

(** Lines 210-227: the content grid of the active tab. *)
Definition active_grid (self : Channel) (initial_data : json) : res json :=
  tabs <- getpath initial_data tabs_path ;;
  tabs <- py_iter tabs ;;
  active_tab <- find_active_tab self tabs ;;
  getpath active_tab grid_path.

(** The body of the first [try] (lines 210-233), up to the assignment
    of [self._visitor_data]: the grid and the visitor data. *)
Definition full_page (self : Channel) (initial_data : json)
  : res (json * json) :=
  videos <- active_grid self initial_data ;;
  visitor_data <- getpath initial_data visitor_data_path ;;
  Ok (videos, visitor_data).

(** What lines 205-254 leave for the rest of the function: the located
    content list, or the early [return [], None] of line 254. *)
Inductive located : Type :=
| Found (videos : json)
| NotFound.

(** The two inner [try] blocks (lines 236-254), entered from the
    handler of the first. *)
Definition locate_continuation (initial_data : json) : res located * list exn :=
  match getpath initial_data wrapped_path with
  | Ok important_content => (Ok (Found important_content), [])
  | Raise e1 =>
      if lookup_error e1 then
        match getpath initial_data bare_path with
        | Ok important_content => (Ok (Found important_content), [])
        | Raise p =>
            if lookup_error p then (Ok NotFound, [p]) else (Raise p, [])
        end
      else (Raise e1, [])
  end.

(** Lines 205-254. *)
Definition locate (self : Channel) (initial_data : json)
  : res located * Channel * list exn :=
  match full_page self initial_data with
  | Ok (videos, visitor_data) =>
      (Ok (Found videos), set_visitor_data visitor_data self, [])
  | Raise e =>
      if lookup_error e then
        let '(r, records) := locate_continuation initial_data in
        (r, self, records)
      else (Raise e, self, [])
  end.

(** ** uniqueify *)

(** Modelled from the spec: [pytube.helpers.uniqueify] is imported at
    line 8 and is not among the sources; the spec has it "deduplicate
    the resulting identifier sequence preserving first occurrence"
    (dedup is stable, first-seen wins).  The list is read front to
    back and an item is kept when no equal item was read before it. *)
Fixpoint uniqueify_seen (seen : list string) (duped_list : list string)
  : list string :=
  match duped_list with
  | [] => []
  | item :: rest =>
      if existsb (String.eqb item) seen then uniqueify_seen seen rest
      else item :: uniqueify_seen (item :: seen) rest
  end.

Definition uniqueify (duped_list : list string) : list string :=
  uniqueify_seen [] duped_list.

(** ** Extracting the identifiers (lines 256-283) *)

Definition continuation_path : list key :=
  [K "continuationItemRenderer"; K "continuationEndpoint";
   K "continuationCommand"; K "token"].

Definition video_id_path : list key :=
  [K "richItemRenderer"; K "content"; K "videoRenderer"; K "videoId"].

Definition reel_id_path : list key :=
  [K "richItemRenderer"; K "content"; K "reelItemRenderer"; K "videoId"].

(** Lines 256-263.  The [try] holds both the lookup of the token and
    the slice; its handler takes [KeyError] and [IndexError] only, and
    leaves [videos] as it was. *)
Definition take_continuation (videos : json) : res (json * json) :=
  match (last <- getitem videos (I (-1)) ;;
         token <- getpath last continuation_path ;;
         rest <- drop_last videos ;;
         Ok (token, rest)) with
  | Ok (continuation, rest) => Ok (continuation, rest)
  | Raise e =>
      if key_or_index_error e then Ok (JNull, videos) else Raise e
  end.

Section Extraction.

(** [str(v)] for a value that is not a [str]: the text an f-string
    puts in place of [{v}].  It is Python's own and stays a parameter. *)
Variable py_str : json -> string.

(** [f"{v}"]: a [str] is copied as it is. *)
Definition format_value (v : json) : string :=
  match v with
  | JStr s => s
  | _ => py_str v
  end.

Definition watch_url (video_id : json) : string :=
  ("/watch?v=" ++ format_value video_id)%string.

(** One [for x in videos: videos_url.append(...)] loop (lines 269-273
    and 276-280): the list as the loop leaves it, and the exception
    that ended the loop early, if one did.  What was appended before
    the exception stays in the list. *)
Fixpoint append_watch_urls (id_path : list key) (xs : list json)
  (videos_url : list string) : list string * option exn :=
  match xs with
  | [] => (videos_url, None)
  | x :: rest =>
      match getpath x id_path with
      | Ok video_id =>
          append_watch_urls id_path rest (videos_url ++ [watch_url video_id])
      | Raise e => (videos_url, Some e)
      end
  end.

(** A whole [for] statement: [videos] must be iterable first. *)
Definition for_append (id_path : list key) (videos : json)
  (videos_url : list string) : list string * option exn :=
  match py_iter videos with
  | Ok xs => append_watch_urls id_path xs videos_url
  | Raise e => (videos_url, Some e)
  end.

(** Lines 266-280: the loop over the full-video path inside a [try],
    and in its handler the loop over the short-form path, appending to
    the same [videos_url]; nothing catches what the second loop
    raises. *)
Definition collect_watch_urls (videos : json) : res (list string) :=
  match for_append video_id_path videos [] with
  | (videos_url, None) => Ok videos_url
  | (videos_url, Some e) =>
      if lookup_error e then
        match for_append reel_id_path videos videos_url with
        | (videos_url', None) => Ok videos_url'
        | (_, Some e') => Raise e'
        end
      else Raise e
  end.

(** Lines 256-283: from the located content list to the returned
    pair. *)
Definition extract_located (videos : json) : res (list string * json) :=
  '(continuation, videos) <- take_continuation videos ;;
  videos_url <- collect_watch_urls videos ;;
  Ok (uniqueify videos_url, continuation).

(** [_extract_videos] (lines 196-283), on the value
    [json.loads(raw_json)] returns. *)
Definition _extract_videos (self : Channel) (initial_data : json) : outcome :=
  match locate self initial_data with
  | (Ok (Found videos), self', records) =>
      mkOutcome (extract_located videos) self' records
  | (Ok NotFound, self', records) =>
      mkOutcome (Ok ([], JNull)) self' records
  | (Raise e, self', records) =>
      mkOutcome (Raise e) self' records
  end.

End Extraction.

(** ** The variants of an item, and the spec's reading of the switch *)

(** An item lacks an identifier path when following it raises. *)
Definition lacks (id_path : list key) (x : json) : Prop :=
  exists e, getpath x id_path = Raise e.




(** The position of the first occurrence of [x]. *)
Fixpoint first_index (x : string) (l : list string) : option nat :=
  match l with
  | [] => None
  | y :: rest =>
      if String.eqb y x then Some 0
      else option_map S (first_index x rest)
  end.

(** ** Sample documents *)

Definition video_renderer (video_id : json) : json :=
  JDict [("richItemRenderer",
          JDict [("content",
                  JDict [("videoRenderer",
                          JDict [("videoId", video_id)])])])].

Definition reel_renderer (video_id : json) : json :=
  JDict [("richItemRenderer",
          JDict [("content",
                  JDict [("reelItemRenderer",
                          JDict [("videoId", video_id)])])])].

Definition continuation_renderer (token : json) : json :=
  JDict [("continuationItemRenderer",
          JDict [("continuationEndpoint",
                  JDict [("continuationCommand",
                          JDict [("token", token)])])])].

Definition tab_renderer (url items : json) : json :=
  JDict [("tabRenderer",
          JDict [("endpoint",
                  JDict [("commandMetadata",
                          JDict [("webCommandMetadata",
                                  JDict [("url", url)])])]);
                 ("content",
                  JDict [("richGridRenderer",
                          JDict [("contents", items)])])])].

(** A page as found in the html, without and with the visitor data. *)
Definition browse_page (tabs : list json) : list (string * json) :=
  [("contents",
    JDict [("twoColumnBrowseResultsRenderer",
            JDict [("tabs", JList tabs)])])].

Definition response_context (visitor_data : json) : list (string * json) :=
  [("responseContext",
    JDict [("webResponseContextExtensionData",
            JDict [("ytConfigData",
                    JDict [("visitorData", visitor_data)])])])].

(** A continuation response in its later form (lines 245-251). *)
Definition continuation_response (items : json) : json :=
  JDict [("onResponseReceivedActions",
          JList [JDict [("appendContinuationItemsAction",
                        JDict [("continuationItems", items)])]])].

Definition sample_channel : Channel :=
  {| channel_uri := "/c/sample";
     channel_url := "https://www.youtube.com/c/sample";
     videos_url := "https://www.youtube.com/c/sample/videos";
     shorts_url := "https://www.youtube.com/c/sample/shorts";
     live_url := "https://www.youtube.com/c/sample/streams";
     playlists_url := "https://www.youtube.com/c/sample/playlists";
     community_url := "https://www.youtube.com/c/sample/community";
     featured_channels_url := "https://www.youtube.com/c/sample/channels";
     about_url := "https://www.youtube.com/c/sample/about";
     _html_url := "https://www.youtube.com/c/sample/videos";
     _visitor_data := JNull;
     _playlists_html := None;
     _community_html := None;
     _featured_channels_html := None;
     _about_html := None;
     yt_api_key := "sample-key" |}.

(** An instance of [py_str] for the samples, whose identifiers are all
    [str] and never reach it. *)
Definition no_text (v : json) : string := "".

(** A page whose only tab carries [null] for its url. *)
Definition page_with_null_url : json :=
  JDict (browse_page [tab_renderer JNull (JList [])]).

(** The videos tab with one video, and no [responseContext]. *)
Definition page_without_visitor_data : json :=
  JDict (browse_page
           [tab_renderer (JStr "/c/sample/featured") (JList []);
            tab_renderer (JStr "/c/sample/videos")
              (JList [video_renderer (JStr "a")])]).

(** The same page with its visitor data, three videos (one repeated)
    and a continuation marker. *)
Definition full_page_sample : json :=
  JDict (browse_page
           [tab_renderer (JStr "/c/sample/featured") (JList []);
            tab_renderer (JStr "/c/sample/videos")
              (JList [video_renderer (JStr "a"); video_renderer (JStr "b");
                      video_renderer (JStr "a");
                      continuation_renderer (JStr "next")])]
         ++ response_context (JStr "visitor")).

(** A continuation response whose list ends in [null]. *)
Definition response_ending_in_null : json :=
  continuation_response (JList [video_renderer (JStr "a"); JNull]).

(** A continuation response with one item of neither variant and a
    continuation marker. *)
Definition response_of_unknown_items : json :=
  continuation_response
    (JList [JDict [("richItemRenderer", JDict [("content", JDict [])])];
            continuation_renderer (JStr "next")]).

(** A continuation response with two videos around an item that has
    no identifier. *)
Definition response_with_broken_item : json :=
  continuation_response
    (JList [video_renderer (JStr "a");
            JDict [("richItemRenderer", JDict [("content", JDict [])])];
            video_renderer (JStr "c")]).


(** A continuation response with nothing but a marker. *)
Definition response_of_marker_only : json :=
  continuation_response (JList [continuation_renderer (JStr "next")]).

(** ** The rest of the class *)

(** [Channel.__init__] (lines 14-44), after [Playlist.__init__].
    [uri] is what [extract.channel_name(url)] returns and [api_key]
    what the [yt_api_key] property of [Playlist] will give; both are
    computed outside this file. *)
Definition __init__ (uri api_key : string) : Channel :=
  let channel_url := ("https://www.youtube.com" ++ uri)%string in
  {| channel_uri := uri;
     channel_url := channel_url;
     videos_url := (channel_url ++ "/videos")%string;
     shorts_url := (channel_url ++ "/shorts")%string;
     live_url := (channel_url ++ "/streams")%string;
     playlists_url := (channel_url ++ "/playlists")%string;
     community_url := (channel_url ++ "/community")%string;
     featured_channels_url := (channel_url ++ "/channels")%string;
     about_url := (channel_url ++ "/about")%string;
     _html_url := (channel_url ++ "/videos")%string;
     _visitor_data := JNull;
     _playlists_html := None;
     _community_html := None;
     _featured_channels_html := None;
     _about_html := None;
     yt_api_key := api_key |}.

(** What [Playlist] keeps for the object and the [html_url] setter
    resets: the page, the data parsed from it, and whether the caches
    of the [video_urls], [last_updated] and [title] properties hold an
    entry. *)
Record Page : Type := mkPage {
  _html : option string;
  _initial_data : option json;
  video_urls_cached : bool;
  last_updated_cached : bool;
  title_cached : bool
}.

(** The object with what it inherits. *)
Definition object : Type := (Channel * Page)%type.

Definition set__html_url (value : string) (self : Channel) : Channel :=
  {| channel_uri := channel_uri self;
     channel_url := channel_url self;
     videos_url := videos_url self;
     shorts_url := shorts_url self;
     live_url := live_url self;
     playlists_url := playlists_url self;
     community_url := community_url self;
     featured_channels_url := featured_channels_url self;
     about_url := about_url self;
     _html_url := value;
     _visitor_data := _visitor_data self;
     _playlists_html := _playlists_html self;
     _community_html := _community_html self;
     _featured_channels_html := _featured_channels_html self;
     _about_html := _about_html self;
     yt_api_key := yt_api_key self |}.

Definition set__playlists_html (value : option string) (self : Channel)
  : Channel :=
  {| channel_uri := channel_uri self;
     channel_url := channel_url self;
     videos_url := videos_url self;
     shorts_url := shorts_url self;
     live_url := live_url self;
     playlists_url := playlists_url self;
     community_url := community_url self;
     featured_channels_url := featured_channels_url self;
     about_url := about_url self;
     _html_url := _html_url self;
     _visitor_data := _visitor_data self;
     _playlists_html := value;
     _community_html := _community_html self;
     _featured_channels_html := _featured_channels_html self;
     _about_html := _about_html self;
     yt_api_key := yt_api_key self |}.

(** The [html_url] setter (lines 84-93): a new value drops the page,
    the parsed data and the three caches; the current value changes
    nothing. *)
Definition set_html_url (value : string) (obj : object) : object :=
  let (self, page) := obj in
  if negb (String.eqb (_html_url self) value) then
    (set__html_url value self,
     {| _html := None;
        _initial_data := None;
        video_urls_cached := false;
        last_updated_cached := false;
        title_cached := false |})
  else obj.

(** The assignments that open the [videos], [shorts] and [live]
    properties (lines 394, 404 and 414); the generator each one then
    returns is built by [Playlist]. *)
Definition videos (obj : object) : object :=
  set_html_url (videos_url (fst obj)) obj.

Definition shorts (obj : object) : object :=
  set_html_url (shorts_url (fst obj)) obj.

Definition live (obj : object) : object :=
  set_html_url (live_url (fst obj)) obj.

(** [if text:] on an attribute that holds [None] or a [str]: [None]
    and the empty [str] are false. *)
Definition truthy (text : option string) : bool :=
  match text with
  | Some (String _ _) => true
  | _ => false
  end.

Section Requests.

(** [request.get(url)] answers with the text the network has for
    [url] at that moment.  [World] is whatever the answer depends on,
    and a request may change it; a request that fails is outside the
    model. *)
Variable World : Type.
Variable request_get : string -> World -> string * World.

(** The [html] property (lines 95-104). *)
Definition html (obj : object) (w : World) : string * object * World :=
  let (self, page) := obj in
  match _html page with
  | Some (String c text) => (String c text, obj, w)
  | _ =>
      let (text, w') := request_get (html_url self) w in
      (text,
       (self,
        {| _html := Some text;
           _initial_data := _initial_data page;
           video_urls_cached := video_urls_cached page;
           last_updated_cached := last_updated_cached page;
           title_cached := title_cached page |}),
       w')
  end.

(** The [playlists_html] property (lines 106-118). *)
Definition playlists_html (self : Channel) (w : World)
  : string * Channel * World :=
  match _playlists_html self with
  | Some (String c text) => (String c text, self, w)
  | _ =>
      let (text, w') := request_get (playlists_url self) w in
      (text, set__playlists_html (Some text) self, w')
  end.

End Requests.

(** ** Reading the channel's metadata *)

(** The properties below read [self.initial_data], the parsed data of
    the current page, which [Playlist] provides; it is their argument
    [initial_data]. *)

(** [channel_name] (lines 46-52). *)
Definition channel_name (initial_data : json) : res json :=
  getpath initial_data
    [K "metadata"; K "channelMetadataRenderer"; K "title"].

(** [channel_id] (lines 54-62). *)
Definition channel_id (initial_data : json) : res json :=
  getpath initial_data
    [K "metadata"; K "channelMetadataRenderer"; K "externalId"].

(** [d.get(name, default)]: only a [dict] has the method. *)
Definition dict_get (v : json) (name : string) (default : json) : res json :=
  match v with
  | JDict fields =>
      Ok match assoc name fields with
         | Some x => x
         | None => default
         end
  | _ => Raise AttributeError
  end.

(** [vanity_url] (lines 64-74). *)
Definition vanity_url (initial_data : json) : res json :=
  renderer <- getpath initial_data
                [K "metadata"; K "channelMetadataRenderer"] ;;
  dict_get renderer "vanityChannelUrl" JNull.

Definition last_updated_path : list key :=
  [K "contents"; K "twoColumnBrowseResultsRenderer"; K "tabs"; I 1;
   K "tabRenderer"; K "content"; K "richGridRenderer"; K "contents"; I 0;
   K "richItemRenderer"; K "content"; K "videoRenderer";
   K "publishedTimeText"; K "simpleText"].

(** The body of [last_updated] (lines 368-385), which runs when the
    cache of the property holds no entry: the object moves to the
    videos page, and the text is read from [initial_data], the data of
    that page; [KeyError] alone gives [None]. *)
Definition last_updated (obj : object) (initial_data : json)
  : res json * object :=
  let obj' := set_html_url (videos_url (fst obj)) obj in
  match getpath initial_data last_updated_path with
  | Ok last_updated_text => (Ok last_updated_text, obj')
  | Raise KeyError => (Ok JNull, obj')
  | Raise e => (Raise e, obj')
  end.

(** [len(v)]: a [list], a [dict] and a [str] have a length. *)
Definition py_len (v : json) : res Z :=
  match v with
  | JList items => Ok (Z.of_nat (List.length items))
  | JDict fields => Ok (Z.of_nat (List.length fields))
  | JStr s => Ok (Z.of_nat (List.length (characters s)))
  | _ => Raise TypeError
  end.

(** [s.split(sep)] for a one-character separator: the pieces of [s]
    between the occurrences of [sep]; there is always one piece. *)
Fixpoint split_on (sep : ascii) (s : string) : list string :=
  match s with
  | EmptyString => [EmptyString]
  | String c rest =>
      if Ascii.eqb c sep then EmptyString :: split_on sep rest
      else match split_on sep rest with
           | piece :: pieces => String c piece :: pieces
           | [] => [String c EmptyString]
           end
  end.

(** [v.split(" ")[0]]: only a [str] has the method. *)
Definition first_word (v : json) : res string :=
  match v with
  | JStr s => py_index (split_on " "%char s) 0
  | _ => Raise AttributeError
  end.

(** [s.replace(old, "")] for a one-character [old]. *)
Fixpoint remove_char (old : ascii) (s : string) : string :=
  match s with
  | EmptyString => EmptyString
  | String c rest =>
      if Ascii.eqb c old then remove_char old rest
      else String c (remove_char old rest)
  end.

(** The path of lines 299-317, with the position of the about tab. *)
Definition views_text_path (about_tab_pos : Z) : list key :=
  [K "contents"; K "twoColumnBrowseResultsRenderer"; K "tabs";
   I about_tab_pos; K "tabRenderer"; K "content"; K "sectionListRenderer";
   K "contents"; I 0; K "itemSectionRenderer"; K "contents"; I 0;
   K "channelAboutFullMetadataRenderer"; K "viewCountText";
   K "simpleText"].

(** What [views] ends in: the count, one of the exceptions above, or
    the [ValueError] of [int]. *)
Inductive view_count : Type :=
| Views (n : Z)
| ViewsRaise (e : exn)
| ViewsValueError.

Section Views.

(** [int(text)]: the number [text] spells, or nothing when [int]
    raises [ValueError].  It is Python's own and stays a parameter. *)
Variable py_int : string -> option Z.

(** [views] (lines 285-325): the object moves to the about page; the
    tab before the last one is taken for the about tab; [KeyError]
    inside the [try] gives 0. *)
Definition views (obj : object) (initial_data : json) : view_count * object :=
  let obj' := set_html_url (about_url (fst obj)) obj in
  match (tabs <- getpath initial_data tabs_path ;; py_len tabs) with
  | Raise e => (ViewsRaise e, obj')
  | Ok n =>
      let about_tab_pos := (n - 2)%Z in
      match (views_text <-
               getpath initial_data (views_text_path about_tab_pos) ;;
             count_text <- first_word views_text ;;
             Ok (remove_char ","%char count_text)) with
      | Ok count_text =>
          match py_int count_text with
          | Some n => (Views n, obj')
          | None => (ViewsValueError, obj')
          end
      | Raise KeyError => (Views 0, obj')
      | Raise e => (ViewsRaise e, obj')
      end
  end.

End Views.

(** A character that [s] holds. *)
Fixpoint has_char (c : ascii) (s : string) : bool :=
  match s with
  | EmptyString => false
  | String c' rest => Ascii.eqb c' c || has_char c rest
  end.

(** [sep.join(pieces)]. *)
Fixpoint join (sep : string) (pieces : list string) : string :=
  match pieces with
  | [] => EmptyString
  | [piece] => piece
  | piece :: rest => (piece ++ sep ++ join sep rest)%string
  end.

(** An item with the full-video identifier [video_id]. *)
Definition is_video_item (x video_id : json) : Prop :=
  getpath x video_id_path = Ok video_id.

(** A tab with a [str] url that ends in another segment than
    [segment]. *)
Definition other_tab (segment : string) (tab : json) : Prop :=
  exists url here,
    getpath tab tab_url_path = Ok (JStr url) /\
    last_segment (JStr url) = Ok here /\
    here <> segment.

(** A page as the about tab shows it: the view count text sits in the
    tab before the last one. *)
Definition about_tab (views_text : json) : json :=
  let metadata :=
    JDict [("channelAboutFullMetadataRenderer",
            JDict [("viewCountText",
                    JDict [("simpleText", views_text)])])] in
  let section :=
    JDict [("itemSectionRenderer",
            JDict [("contents", JList [metadata])])] in
  JDict [("tabRenderer",
          JDict [("content",
                  JDict [("sectionListRenderer",
                          JDict [("contents", JList [section])])])])].

Definition sample_page : Page :=
  {| _html := Some "<html>videos</html>";
     _initial_data := Some (JDict []);
     video_urls_cached := true;
     last_updated_cached := true;
     title_cached := true |}.

(** An instance of [request.get] for the samples: the world counts the
    requests made, and the answer names the url and the count. *)
Definition sample_request (url : string) (w : nat) : string * nat :=
  (("page of " ++ url)%string, S w).

(** An instance of [int] for the samples, which reads decimal digits
    only. *)
Fixpoint digits_value (acc : Z) (s : string) : option Z :=
  match s with
  | EmptyString => Some acc
  | String c rest =>
      let d := (Z.of_nat (nat_of_ascii c) - 48)%Z in
      if ((0 <=? d) && (d <=? 9))%Z then digits_value (10 * acc + d)%Z rest
      else None
  end.

Definition sample_int (s : string) : option Z :=
  match s with
  | EmptyString => None
  | _ => digits_value 0 s
  end.

(** An item that carries both renderers. *)
Definition double_renderer (video_id reel_id : json) : json :=
  JDict [("richItemRenderer",
          JDict [("content",
                  JDict [("videoRenderer", JDict [("videoId", video_id)]);
                         ("reelItemRenderer",
                          JDict [("videoId", reel_id)])])])].

(** A continuation response with an item of both renderers ahead of a
    short-form item. *)
Definition response_of_mixed_items : json :=
  continuation_response
    (JList [double_renderer (JStr "v") (JStr "r"); reel_renderer (JStr "s")]).

(** The part of [views_text_path] below the tab. *)
Definition tab_views_path : list key :=
  [K "tabRenderer"; K "content"; K "sectionListRenderer";
   K "contents"; I 0; K "itemSectionRenderer"; K "contents"; I 0;
   K "channelAboutFullMetadataRenderer"; K "viewCountText";
   K "simpleText"].

(** A piece of a count: a text without comma and without space. *)
Definition is_group (g : string) : Prop :=
  has_char ","%char g = false /\ has_char " "%char g = false.

(** ** Subscripting *)

Lemma py_index_raises {A : Type} (l : list A) (i : Z) (e : exn) :
  py_index l i = Raise e -> e = IndexError.
Proof.
  unfold py_index.
  destruct (_ <? 0)%Z; [congruence|].
  destruct (nth_error l _); congruence.
Qed.

Lemma py_index_in {A : Type} (l : list A) (i : Z) (a : A) :
  py_index l i = Ok a -> In a l.
Proof.
  unfold py_index.
  destruct (_ <? 0)%Z; [discriminate|].
  destruct (nth_error l _) eqn:E; [|discriminate].
  intros [= <-]. eapply nth_error_In; eauto.
Qed.

Lemma py_index_nil {A : Type} (i : Z) : py_index (@nil A) i = Raise IndexError.
Proof.
  unfold py_index. simpl.
  destruct (_ <? 0)%Z; [reflexivity|].
  destruct (Z.to_nat _); reflexivity.
Qed.

(** [l[-1]] is the last element. *)
Lemma py_index_last {A : Type} (l : list A) (a : A) :
  py_index (l ++ [a]) (-1) = Ok a.
Proof.
  unfold py_index.
  replace (-1 <? 0)%Z with true by reflexivity.
  rewrite length_app. simpl List.length.
  replace (-1 + Z.of_nat (List.length l + 1))%Z
    with (Z.of_nat (List.length l)) by lia.
  destruct (Z.ltb_spec (Z.of_nat (List.length l)) 0); [lia|].
  rewrite Nat2Z.id, nth_error_app2 by lia.
  now rewrite Nat.sub_diag.
Qed.

Lemma nil_or_last {A : Type} (l : list A) :
  l = [] \/ exists front last, l = front ++ [last].
Proof. induction l using rev_ind; eauto. Qed.

(** Subscripting raises nothing but the three lookup errors. *)
Lemma getitem_lookup_error (v : json) (k : key) (e : exn) :
  getitem v k = Raise e -> lookup_error e = true.
Proof.
  destruct v, k; simpl; try (intros [= <-]; reflexivity).
  - intros H. apply py_index_raises in H. now subst.
  - intros H. apply py_index_raises in H. now subst.
  - destruct (assoc name fields); intros [= <-]; reflexivity.
Qed.

Lemma getpath_lookup_error (ks : list key) (v : json) (e : exn) :
  getpath v ks = Raise e -> lookup_error e = true.
Proof.
  revert v; induction ks as [|k ks IH]; intros v; simpl; [discriminate|].
  destruct (getitem v k) eqn:E; simpl.
  - apply IH.
  - intros [= <-]. eapply getitem_lookup_error; eauto.
Qed.

(** Only a [dict] answers a [str] subscript. *)
Lemma getitem_str_dict (v : json) (name : string) (x : json) :
  getitem v (K name) = Ok x -> exists fields, v = JDict fields.
Proof.
  destruct v; simpl; try discriminate. eauto.
Qed.

Lemma getpath_str_dict (v : json) (name : string) (ks : list key) (x : json) :
  getpath v (K name :: ks) = Ok x -> exists fields, v = JDict fields.
Proof.
  simpl. destruct (getitem v (K name)) eqn:E; [|discriminate].
  intros _. eapply getitem_str_dict; eauto.
Qed.

(** ** The locator *)

Lemma set_visitor_data_same (self : Channel) :
  set_visitor_data (_visitor_data self) self = self.
Proof. now destruct self. Qed.

(** Nothing is logged on the way to a located list. *)
Lemma locate_continuation_found (doc videos : json) (records : list exn) :
  locate_continuation doc = (Ok (Found videos), records) -> records = [].
Proof.
  unfold locate_continuation.
  destruct (getpath doc wrapped_path); [now intros [= _ <-]|].
  destruct (lookup_error e); [|discriminate].
  destruct (getpath doc bare_path); [now intros [= _ <-]|].
  destruct (lookup_error e0); discriminate.
Qed.

Lemma locate_found (self self' : Channel) (doc videos : json)
  (records : list exn) :
  locate self doc = (Ok (Found videos), self', records) -> records = [].
Proof.
  unfold locate.
  destruct (full_page self doc) as [[v vd]|e]; [now intros [= _ _ <-]|].
  destruct (lookup_error e); [|discriminate].
  destruct (locate_continuation doc) as [r rec] eqn:E.
  intros [= -> _ <-]. eapply locate_continuation_found; eauto.
Qed.

(** The locator changes [_visitor_data] alone, and only when the body
    of the first [try] runs to its end. *)
Lemma locate_self (self : Channel) (doc : json) :
  snd (fst (locate self doc)) =
  set_visitor_data
    match full_page self doc with
    | Ok (_, visitor_data) => visitor_data
    | Raise _ => _visitor_data self
    end self.
Proof.
  unfold locate.
  destruct (full_page self doc) as [[v vd]|e]; [reflexivity|].
  rewrite set_visitor_data_same.
  destruct (lookup_error e); [|reflexivity].
  now destruct (locate_continuation doc).
Qed.

(** A document on which the three attempts end in lookup errors gives
    the empty page, with the last error logged. *)
Lemma locate_not_found (self : Channel) (doc : json) (e1 e2 p : exn) :
  full_page self doc = Raise e1 ->
  lookup_error e1 = true ->
  getpath doc wrapped_path = Raise e2 ->
  getpath doc bare_path = Raise p ->
  locate self doc = (Ok NotFound, self, [p]).
Proof.
  intros H1 L1 H2 H3. unfold locate, locate_continuation.
  rewrite H1, L1, H2, H3.
  now rewrite (getpath_lookup_error _ _ _ H2), (getpath_lookup_error _ _ _ H3).
Qed.

(** ** The continuation marker *)

(** A last item whose token path resolves is taken off the list and
    its token kept. *)
Lemma take_continuation_marker (items : list json) (last token : json) :
  getpath last continuation_path = Ok token ->
  take_continuation (JList (items ++ [last])) = Ok (token, JList items).
Proof.
  intros H. unfold take_continuation. cbn [getitem].
  rewrite py_index_last. cbn [bind]. rewrite H. cbn [bind drop_last].
  now rewrite removelast_last.
Qed.

(** A last item on which the token path ends in [KeyError] or
    [IndexError] stays, and there is no token. *)
Lemma take_continuation_no_marker (items : list json) (last : json) (e : exn) :
  getpath last continuation_path = Raise e ->
  key_or_index_error e = true ->
  take_continuation (JList (items ++ [last])) = Ok (JNull, JList (items ++ [last])).
Proof.
  intros H He. unfold take_continuation. cbn [getitem].
  rewrite py_index_last. cbn [bind]. rewrite H. cbn [bind]. now rewrite He.
Qed.

Lemma take_continuation_nil : take_continuation (JList []) = Ok (JNull, JList []).
Proof. reflexivity. Qed.

(** An item without the key [continuationItemRenderer] is no marker. *)
Lemma no_marker_key (x : json) :
  getitem x (K "continuationItemRenderer") = Raise KeyError ->
  getpath x continuation_path = Raise KeyError.
Proof. intros H. unfold continuation_path. simpl. now rewrite H. Qed.

Section ExtractionFacts.

Variable py_str : json -> string.

(** ** The two loops *)

Lemma append_all (id_path : list key) (xs ids : list json)
  (videos_url : list string) :
  Forall2 (fun x video_id => getpath x id_path = Ok video_id) xs ids ->
  append_watch_urls py_str id_path xs videos_url =
  (videos_url ++ map (watch_url py_str) ids, None).
Proof.
  intros H; revert videos_url.
  induction H as [|x video_id xs ids Hx _ IH]; intros videos_url; simpl.
  - now rewrite app_nil_r.
  - rewrite Hx, IH, <- app_assoc. reflexivity.
Qed.

Lemma append_first_fails (id_path : list key) (x : json) (xs : list json)
  (videos_url : list string) (e : exn) :
  getpath x id_path = Raise e ->
  append_watch_urls py_str id_path (x :: xs) videos_url = (videos_url, Some e).
Proof. intros H. cbn [append_watch_urls]. now rewrite H. Qed.

Lemma append_stops (id_path : list key) (xs : list json)
  (videos_url : list string) :
  Exists (lacks id_path) xs ->
  exists videos_url' e,
    append_watch_urls py_str id_path xs videos_url = (videos_url', Some e) /\
    lookup_error e = true.
Proof.
  intros H; revert videos_url.
  induction H as [x xs [e Hx]|x xs _ IH]; intros videos_url; simpl.
  - rewrite Hx. exists videos_url, e. split; [reflexivity|].
    eapply getpath_lookup_error; eauto.
  - destruct (getpath x id_path) as [video_id|e] eqn:Hx.
    + apply IH.
    + exists videos_url, e. split; [reflexivity|].
      eapply getpath_lookup_error; eauto.
Qed.

(** When both paths are absent somewhere in the list, the second loop
    raises and nothing catches it. *)
Lemma collect_raises (xs : list json) :
  Exists (lacks video_id_path) xs ->
  Exists (lacks reel_id_path) xs ->
  exists e,
    collect_watch_urls py_str (JList xs) = Raise e /\ lookup_error e = true.
Proof.
  intros Hv Hr. unfold collect_watch_urls, for_append. simpl py_iter.
  destruct (append_stops video_id_path xs [] Hv) as (acc & e & -> & ->).
  destruct (append_stops reel_id_path xs acc Hr) as (acc' & e' & -> & He').
  now exists e'.
Qed.





(** ** The whole function *)

Lemma extract_videos_found (self self' : Channel) (doc videos : json)
  (records : list exn) :
  locate self doc = (Ok (Found videos), self', records) ->
  _extract_videos py_str self doc =
  mkOutcome (extract_located py_str videos) self' [].
Proof.
  intros H. unfold _extract_videos. rewrite H.
  now rewrite (locate_found _ _ _ _ _ H).
Qed.

End ExtractionFacts.

(** ** uniqueify keeps the first occurrences, in order *)

Lemma seen_spec (x : string) (seen : list string) :
  existsb (String.eqb x) seen = true <-> In x seen.
Proof.
  rewrite existsb_exists. split.
  - intros (y & Hy & E). apply String.eqb_eq in E. now subst.
  - intros H. exists x. split; [assumption|apply String.eqb_refl].
Qed.

Lemma uniqueify_seen_In (l seen : list string) (y : string) :
  In y (uniqueify_seen seen l) <-> In y l /\ ~ In y seen.
Proof.
  revert seen; induction l as [|x l IH]; intros seen; simpl.
  - tauto.
  - destruct (existsb (String.eqb x) seen) eqn:E.
    + apply seen_spec in E. rewrite IH.
      split; [tauto|]. intros [[->|H] Hn]; tauto.
    + assert (Hx : ~ In x seen).
      { intros H. apply seen_spec in H. congruence. }
      simpl. rewrite IH. simpl.
      destruct (string_dec x y) as [->|Hne]; tauto.
Qed.

Lemma uniqueify_seen_NoDup (l seen : list string) :
  NoDup (uniqueify_seen seen l).
Proof.
  revert seen; induction l as [|x l IH]; intros seen; simpl.
  - constructor.
  - destruct (existsb (String.eqb x) seen); [apply IH|].
    constructor; [|apply IH].
    rewrite uniqueify_seen_In. simpl. tauto.
Qed.

Lemma first_index_In (x : string) (l : list string) :
  In x l -> exists p, first_index x l = Some p.
Proof.
  induction l as [|y l IH]; simpl; [tauto|].
  intros H. destruct (String.eqb y x) eqn:E; [eauto|].
  destruct H as [->|H]; [rewrite String.eqb_refl in E; discriminate|].
  destruct (IH H) as [p ->]. simpl. eauto.
Qed.

Lemma first_index_skip (x y : string) (l : list string) (p : nat) :
  y <> x -> first_index x l = Some p -> first_index x (y :: l) = Some (S p).
Proof.
  intros Hne H. simpl.
  destruct (String.eqb y x) eqn:E; [apply String.eqb_eq in E; tauto|].
  now rewrite H.
Qed.

Lemma uniqueify_seen_order (l seen : list string) (i j : nat) (a b : string) :
  i < j ->
  nth_error (uniqueify_seen seen l) i = Some a ->
  nth_error (uniqueify_seen seen l) j = Some b ->
  exists p q, first_index a l = Some p /\ first_index b l = Some q /\ p < q.
Proof.
  revert seen i j; induction l as [|x l IH]; intros seen i j Hij Ha Hb.
  - destruct i; discriminate.
  - simpl in Ha, Hb.
    destruct (existsb (String.eqb x) seen) eqn:E.
    + apply seen_spec in E.
      destruct (IH seen i j Hij Ha Hb) as (p & q & Hp & Hq & Hpq).
      apply nth_error_In, uniqueify_seen_In in Ha, Hb.
      exists (S p), (S q). repeat split; [| |lia];
        apply first_index_skip; trivial; intros ->; tauto.
    + destruct j as [|j]; [lia|]. simpl in Hb.
      pose proof (nth_error_In _ _ Hb) as Hb'.
      apply uniqueify_seen_In in Hb'. simpl in Hb'.
      destruct Hb' as [Hbl Hbn].
      destruct i as [|i]; simpl in Ha.
      * injection Ha as ->.
        destruct (first_index_In b l Hbl) as [q Hq].
        exists 0, (S q). repeat split; [|now apply first_index_skip; tauto|lia].
        simpl. now rewrite String.eqb_refl.
      * assert (Hij' : i < j) by lia.
        destruct (IH (x :: seen) i j Hij' Ha Hb) as (p & q & Hp & Hq & Hpq).
        apply nth_error_In, uniqueify_seen_In in Ha. simpl in Ha.
        exists (S p), (S q). repeat split; [| |lia];
          apply first_index_skip; tauto.
Qed.

(** [uniqueify] returns each identifier of its argument exactly once,
    and two identifiers stand in the output in the order of their first
    occurrences in the argument. *)
Lemma uniqueify_stable (videos_url : list string) :
  NoDup (uniqueify videos_url) /\
  (forall x, In x (uniqueify videos_url) <-> In x videos_url) /\
  (forall i j a b,
      i < j ->
      nth_error (uniqueify videos_url) i = Some a ->
      nth_error (uniqueify videos_url) j = Some b ->
      exists p q,
        first_index a videos_url = Some p /\
        first_index b videos_url = Some q /\ p < q).
Proof.
  unfold uniqueify. split; [apply uniqueify_seen_NoDup|]. split.
  - intros x. rewrite uniqueify_seen_In. simpl. tauto.
  - intros i j a b. apply uniqueify_seen_order.
Qed.



(** ** Sample runs *)

(** A page from the html: the tab is found by the last segment of its
    url, the marker gives the token, the repeated video is dropped and
    the visitor data is stored. *)
Example full_page_run :
  _extract_videos no_text sample_channel full_page_sample =
  mkOutcome (Ok (["/watch?v=a"; "/watch?v=b"], JStr "next"))
    (set_visitor_data (JStr "visitor") sample_channel) [].
Proof. reflexivity. Qed.

(** A continuation response in its earlier form, a list whose second
    element wraps the response (lines 239-241). *)
Example wrapped_run :
  _extract_videos no_text sample_channel
    (JList [JNull;
            JDict [("response",
                    continuation_response
                      (JList [video_renderer (JStr "a");
                              video_renderer (JStr "b")]))]]) =
  mkOutcome (Ok (["/watch?v=a"; "/watch?v=b"], JNull)) sample_channel [].
Proof. reflexivity. Qed.

(** An object of none of the shapes. *)
Example unknown_shape_run :
  _extract_videos no_text sample_channel (JDict [("error", JInt 404)]) =
  mkOutcome (Ok ([], JNull)) sample_channel [KeyError].
Proof. reflexivity. Qed.

(** An item that carries both renderers ahead of a short-form item:
    the url appended by the first loop stays in the list the second
    loop appends to. *)
Example shared_list_run :
  _extract_videos no_text sample_channel
    (continuation_response
       (JList [JDict [("richItemRenderer",
                       JDict [("content",
                               JDict [("videoRenderer",
                                       JDict [("videoId", JStr "v")]);
                                      ("reelItemRenderer",
                                       JDict [("videoId", JStr "r")])])])];
               reel_renderer (JStr "s")])) =
  mkOutcome (Ok (["/watch?v=v"; "/watch?v=r"; "/watch?v=s"], JNull))
    sample_channel [].
Proof. reflexivity. Qed.

(** ** Documents of an unknown shape *)

(** When the three attempts end in lookup errors, the call returns
    [([], None)], logs the error of the last attempt and leaves the
    object as it was. *)
Lemma unknown_shape_empty_page (py_str : json -> string) (self : Channel)
  (doc : json) (e1 e2 p : exn) :
  full_page self doc = Raise e1 ->
  lookup_error e1 = true ->
  getpath doc wrapped_path = Raise e2 ->
  getpath doc bare_path = Raise p ->
  _extract_videos py_str self doc = mkOutcome (Ok ([], JNull)) self [p].
Proof.
  intros H1 L1 H2 H3. unfold _extract_videos.
  now rewrite (locate_not_found _ _ _ _ _ H1 L1 H2 H3).
Qed.

(** C1: on a page whose tab carries [null] where its url should be, a
    document of none of the three shapes, [rsplit] is looked up on
    [None]: the call raises [AttributeError], which no handler takes,
    instead of returning [([], None)]; nothing is logged. *)
Theorem null_tab_url_raises (py_str : json -> string) (self : Channel) :
  _extract_videos py_str self page_with_null_url =
  mkOutcome (Raise AttributeError) self [].
Proof. reflexivity. Qed.

(** C4: on a located list whose last item is [null], which is no
    continuation marker, the lookup of the token raises [TypeError];
    the handler of line 261 takes [KeyError] and [IndexError] only, so
    the call raises instead of going on without a token. *)
Theorem null_last_item_raises (py_str : json -> string) (self : Channel) :
  locate self response_ending_in_null =
    (Ok (Found (JList [video_renderer (JStr "a"); JNull])), self, []) /\
  _extract_videos py_str self response_ending_in_null =
  mkOutcome (Raise TypeError) self [].
Proof. split; reflexivity. Qed.

(** ** When neither variant applies *)

(** C2, as the code has it: when, once the marker is off, some item
    lacks the full-video path and some item lacks the short-form path,
    the second loop raises a lookup error that nothing catches; the
    call returns neither an empty list nor the token. *)
Theorem neither_variant_raises (py_str : json -> string) (self self' : Channel)
  (doc videos continuation : json) (records : list exn) (xs : list json) :
  locate self doc = (Ok (Found videos), self', records) ->
  take_continuation videos = Ok (continuation, JList xs) ->
  Exists (lacks video_id_path) xs ->
  Exists (lacks reel_id_path) xs ->
  exists e,
    returned (_extract_videos py_str self doc) = Raise e /\
    lookup_error e = true.
Proof.
  intros Hl Hc Hv Hr.
  rewrite (extract_videos_found py_str _ _ _ _ _ Hl). simpl returned.
  unfold extract_located. rewrite Hc. cbn [bind].
  destruct (collect_raises py_str xs Hv Hr) as (e & -> & He).
  now exists e.
Qed.

Lemma neither_variant_raises_witness :
  exists e,
    returned (_extract_videos no_text sample_channel response_of_unknown_items)
    = Raise e /\ lookup_error e = true.
Proof.
  apply (neither_variant_raises no_text sample_channel sample_channel
           response_of_unknown_items
           (JList [JDict [("richItemRenderer", JDict [("content", JDict [])])];
                   continuation_renderer (JStr "next")])
           (JStr "next") []
           [JDict [("richItemRenderer", JDict [("content", JDict [])])]]).
  - reflexivity.
  - reflexivity.
  - apply Exists_cons_hd. exists KeyError. reflexivity.
  - apply Exists_cons_hd. exists KeyError. reflexivity.
Defined.

(** The list holds an item of neither variant and a marker with the
    token "next": the call raises [KeyError]. *)
Lemma unknown_items_counterexample :
  _extract_videos no_text sample_channel response_of_unknown_items =
    mkOutcome (Raise KeyError) sample_channel [] /\
  returned (_extract_videos no_text sample_channel response_of_unknown_items)
    <> Ok ([], JStr "next").
Proof. split; [reflexivity|discriminate]. Qed.

(** C3, as the code has it: an item that lacks both identifier paths
    and is still in the list once the marker is off is not skipped; the
    call raises a lookup error, returns no identifier of the other
    items and logs nothing. *)
Theorem missing_item_raises (py_str : json -> string) (self self' : Channel)
  (doc videos continuation x : json) (records : list exn) (xs : list json) :
  locate self doc = (Ok (Found videos), self', records) ->
  take_continuation videos = Ok (continuation, JList xs) ->
  In x xs ->
  lacks video_id_path x ->
  lacks reel_id_path x ->
  (exists e,
      returned (_extract_videos py_str self doc) = Raise e /\
      lookup_error e = true) /\
  logged (_extract_videos py_str self doc) = [].
Proof.
  intros Hl Hc Hx Hv Hr. split.
  - rewrite (extract_videos_found py_str _ _ _ _ _ Hl). simpl returned.
    unfold extract_located. rewrite Hc. cbn [bind].
    destruct (collect_raises py_str xs) as (e & -> & He).
    + apply Exists_exists. eauto.
    + apply Exists_exists. eauto.
    + now exists e.
  - now rewrite (extract_videos_found py_str _ _ _ _ _ Hl).
Qed.

Lemma missing_item_raises_witness :
  (exists e,
      returned (_extract_videos no_text sample_channel response_with_broken_item)
      = Raise e /\ lookup_error e = true) /\
  logged (_extract_videos no_text sample_channel response_with_broken_item) = [].
Proof.
  apply (missing_item_raises no_text sample_channel sample_channel
           response_with_broken_item
           (JList [video_renderer (JStr "a");
                   JDict [("richItemRenderer", JDict [("content", JDict [])])];
                   video_renderer (JStr "c")])
           JNull
           (JDict [("richItemRenderer", JDict [("content", JDict [])])]) []
           [video_renderer (JStr "a");
            JDict [("richItemRenderer", JDict [("content", JDict [])])];
            video_renderer (JStr "c")]).
  - reflexivity.
  - reflexivity.
  - simpl. tauto.
  - exists KeyError. reflexivity.
  - exists KeyError. reflexivity.
Defined.

(** Two videos around an item without identifier: the call raises
    [KeyError] and logs nothing, where the claim has it return the
    identifiers of the two videos. *)
Lemma broken_item_counterexample :
  _extract_videos no_text sample_channel response_with_broken_item =
    mkOutcome (Raise KeyError) sample_channel [] /\
  returned (_extract_videos no_text sample_channel response_with_broken_item)
    <> Ok (["/watch?v=a"; "/watch?v=c"], JNull).
Proof. split; [reflexivity|discriminate]. Qed.

(** ** The object after a call *)

Lemma extract_videos_self_after (py_str : json -> string) (self : Channel)
  (doc : json) :
  self_after (_extract_videos py_str self doc) =
  set_visitor_data
    match full_page self doc with
    | Ok (_, visitor_data) => visitor_data
    | Raise _ => _visitor_data self
    end self.
Proof.
  rewrite <- locate_self. unfold _extract_videos.
  destruct (locate self doc) as [[[[v|]|e] self'] records]; reflexivity.
Qed.

(** C10: a call changes no attribute but [_visitor_data]; it sets
    [_visitor_data] to the page's visitor data when the body of the
    first [try] runs to its end, and leaves the object as it was when
    that body raises, which it does before either continuation shape
    is tried. *)
Theorem extract_videos_frame (py_str : json -> string) (self : Channel)
  (doc : json) :
  self_after (_extract_videos py_str self doc) =
    set_visitor_data
      (_visitor_data (self_after (_extract_videos py_str self doc))) self /\
  (forall videos visitor_data,
      full_page self doc = Ok (videos, visitor_data) ->
      _visitor_data (self_after (_extract_videos py_str self doc))
      = visitor_data) /\
  (forall e,
      full_page self doc = Raise e ->
      self_after (_extract_videos py_str self doc) = self).
Proof.
  rewrite extract_videos_self_after. repeat split.
  - intros videos visitor_data ->. reflexivity.
  - intros e ->. apply set_visitor_data_same.
Qed.

(** ** A page without visitor data *)

(** C5, as the code has it: when the grid of the active tab is found
    and the visitor data is not, the first [try] fails as a whole; the
    grid is dropped, the session token stays as it was, and the
    document is read as a continuation response: a list found under
    that shape is extracted, and otherwise the call returns
    [([], None)] and logs the error. *)
Theorem missing_visitor_data_falls_through (py_str : json -> string)
  (self : Channel) (doc videos : json) (e : exn) :
  active_grid self doc = Ok videos ->
  getpath doc visitor_data_path = Raise e ->
  self_after (_extract_videos py_str self doc) = self /\
  match getpath doc bare_path with
  | Ok items =>
      returned (_extract_videos py_str self doc) = extract_located py_str items
      /\ logged (_extract_videos py_str self doc) = []
  | Raise p =>
      returned (_extract_videos py_str self doc) = Ok ([], JNull)
      /\ logged (_extract_videos py_str self doc) = [p]
  end.
Proof.
  intros Hg Hv.
  assert (Hf : full_page self doc = Raise e).
  { unfold full_page. rewrite Hg. cbn [bind]. now rewrite Hv. }
  assert (Hd : exists fields, doc = JDict fields).
  { unfold active_grid in Hg.
    destruct (getpath doc tabs_path) eqn:Ht; [|discriminate].
    eapply getpath_str_dict. apply Ht. }
  split.
  - rewrite extract_videos_self_after, Hf. apply set_visitor_data_same.
  - destruct Hd as [fields ->].
    unfold _extract_videos, locate, locate_continuation.
    rewrite Hf, (getpath_lookup_error _ _ _ Hv).
    change (getpath (JDict fields) wrapped_path) with (@Raise json KeyError).
    cbn [lookup_error].
    destruct (getpath (JDict fields) bare_path) as [items|p] eqn:Hb.
    + split; reflexivity.
    + rewrite (getpath_lookup_error _ _ _ Hb). split; reflexivity.
Qed.

Lemma missing_visitor_data_falls_through_witness :
  self_after (_extract_videos no_text sample_channel page_without_visitor_data)
  = sample_channel /\
  returned (_extract_videos no_text sample_channel page_without_visitor_data)
  = Ok ([], JNull) /\
  logged (_extract_videos no_text sample_channel page_without_visitor_data)
  = [KeyError].
Proof.
  apply (missing_visitor_data_falls_through no_text sample_channel
           page_without_visitor_data (JList [video_renderer (JStr "a")])
           KeyError).
  - reflexivity.
  - reflexivity.
Defined.

(** The active tab holds one video and the page has no visitor data:
    the call returns no identifier, where the claim has it return the
    video's. *)
Lemma no_visitor_data_counterexample :
  active_grid sample_channel page_without_visitor_data
  = Ok (JList [video_renderer (JStr "a")]) /\
  _extract_videos no_text sample_channel page_without_visitor_data =
    mkOutcome (Ok ([], JNull)) sample_channel [KeyError] /\
  returned (_extract_videos no_text sample_channel page_without_visitor_data)
    <> Ok (["/watch?v=a"], JNull).
Proof. repeat split; discriminate. Qed.

(** ** Pages of short-form items *)




(** ** Deduplication of a page *)

(** C7: the list a call returns holds each watch url the loops
    collected exactly once, and two of them stand in it in the order of
    their first occurrences in the collected list. *)
Theorem extracted_ids_first_seen (py_str : json -> string)
  (self self' : Channel) (doc videos continuation rest : json)
  (records : list exn) (videos_url : list string) :
  locate self doc = (Ok (Found videos), self', records) ->
  take_continuation videos = Ok (continuation, rest) ->
  collect_watch_urls py_str rest = Ok videos_url ->
  exists ids,
    returned (_extract_videos py_str self doc) = Ok (ids, continuation) /\
    NoDup ids /\
    (forall x, In x ids <-> In x videos_url) /\
    (forall i j a b,
        i < j ->
        nth_error ids i = Some a ->
        nth_error ids j = Some b ->
        exists p q,
          first_index a videos_url = Some p /\
          first_index b videos_url = Some q /\ p < q).
Proof.
  intros Hl Hc Hu. exists (uniqueify videos_url). split.
  - rewrite (extract_videos_found py_str _ _ _ _ _ Hl). simpl returned.
    unfold extract_located. rewrite Hc. cbn [bind]. now rewrite Hu.
  - apply uniqueify_stable.
Qed.

Lemma extracted_ids_first_seen_witness :
  exists ids,
    returned (_extract_videos no_text sample_channel full_page_sample)
    = Ok (ids, JStr "next") /\
    NoDup ids /\
    (forall x,
        In x ids <-> In x ["/watch?v=a"; "/watch?v=b"; "/watch?v=a"]) /\
    (forall i j a b,
        i < j ->
        nth_error ids i = Some a ->
        nth_error ids j = Some b ->
        exists p q,
          first_index a ["/watch?v=a"; "/watch?v=b"; "/watch?v=a"] = Some p /\
          first_index b ["/watch?v=a"; "/watch?v=b"; "/watch?v=a"] = Some q /\
          p < q).
Proof.
  apply (extracted_ids_first_seen no_text sample_channel
           (set_visitor_data (JStr "visitor") sample_channel)
           full_page_sample
           (JList [video_renderer (JStr "a"); video_renderer (JStr "b");
                   video_renderer (JStr "a");
                   continuation_renderer (JStr "next")])
           (JStr "next")
           (JList [video_renderer (JStr "a"); video_renderer (JStr "b");
                   video_renderer (JStr "a")]) []).
  - reflexivity.
  - reflexivity.
  - reflexivity.
Defined.

(** ** Empty pages *)

(** C8: an empty located list gives [([], None)], and a located list
    that holds a continuation marker and nothing else gives the empty
    list with the marker's token. *)
Theorem edge_pages (py_str : json -> string) (self self' : Channel)
  (doc : json) (records : list exn) :
  (locate self doc = (Ok (Found (JList [])), self', records) ->
   returned (_extract_videos py_str self doc) = Ok ([], JNull)) /\
  (forall marker token,
      locate self doc = (Ok (Found (JList [marker])), self', records) ->
      getpath marker continuation_path = Ok token ->
      returned (_extract_videos py_str self doc) = Ok ([], token)).
Proof.
  split.
  - intros Hl. now rewrite (extract_videos_found py_str _ _ _ _ _ Hl).
  - intros marker token Hl Ht.
    rewrite (extract_videos_found py_str _ _ _ _ _ Hl). simpl returned.
    unfold extract_located.
    change [marker] with ([] ++ [marker]).
    now rewrite (take_continuation_marker [] marker token Ht).
Qed.

Lemma edge_pages_witness :
  returned (_extract_videos no_text sample_channel
              (continuation_response (JList [])))
  = Ok ([], JNull) /\
  returned (_extract_videos no_text sample_channel response_of_marker_only)
  = Ok ([], JStr "next").
Proof.
  split.
  - apply (proj1 (edge_pages no_text sample_channel sample_channel
                    (continuation_response (JList [])) [])).
    reflexivity.
  - apply (proj2 (edge_pages no_text sample_channel sample_channel
                    response_of_marker_only [])
             (continuation_renderer (JStr "next")) (JStr "next")).
    + reflexivity.
    + reflexivity.
Defined.

(** ** The request for the next page *)

(** C9: the url is the browse endpoint followed by the api key, the
    headers are the client name and version, and the body holds the
    continuation token, the stored visitor data and the client name
    "WEB" with the client version, and nothing else; after a call of
    [_extract_videos] the stored visitor data is the one of the last
    page that carried it. *)
Theorem build_continuation_url_descriptor (self : Channel)
  (continuation : string) :
  fst (fst (_build_continuation_url self (JStr continuation))) =
    ("https://www.youtube.com/youtubei/v1/browse?key=" ++ yt_api_key self)%string /\
  snd (fst (_build_continuation_url self (JStr continuation))) =
    [("X-YouTube-Client-Name", "1");
     ("X-YouTube-Client-Version", "2.20200720.00.02")] /\
  snd (_build_continuation_url self (JStr continuation)) =
    JDict
      [("continuation", JStr continuation);
       ("context",
        JDict
          [("client",
            JDict
              [("clientName", JStr "WEB");
               ("visitorData", _visitor_data self);
               ("clientVersion", JStr "2.20200720.00.02")])])] /\
  (forall py_str doc,
      getpath
        (snd (_build_continuation_url
                (self_after (_extract_videos py_str self doc))
                (JStr continuation)))
        [K "context"; K "client"; K "visitorData"] =
      Ok match full_page self doc with
         | Ok (_, visitor_data) => visitor_data
         | Raise _ => _visitor_data self
         end).
Proof.
  repeat split.
  intros py_str doc. now rewrite extract_videos_self_after.
Qed.

(** ** More on the two loops *)

Section LoopFacts.

Variable py_str : json -> string.

(** A loop stops at the first item that lacks the path, with the urls
    of the items before it appended. *)
Lemma append_until (id_path : list key) (pre post : list json) (x : json)
  (ids : list json) (videos_url : list string) (e : exn) :
  Forall2 (fun y video_id => getpath y id_path = Ok video_id) pre ids ->
  getpath x id_path = Raise e ->
  append_watch_urls py_str id_path (pre ++ x :: post) videos_url =
  (videos_url ++ map (watch_url py_str) ids, Some e).
Proof.
  intros H Hx; revert videos_url.
  induction H as [|y video_id pre ids Hy _ IH]; intros videos_url.
  - cbn [app map]. rewrite app_nil_r. now apply append_first_fails.
  - cbn [app append_watch_urls map]. rewrite Hy, IH, <- app_assoc.
    reflexivity.
Qed.

(** The exception that ends a loop early is the one an item raised. *)
Lemma append_watch_urls_raised (id_path : list key) (xs : list json)
  (videos_url videos_url' : list string) (e : exn) :
  append_watch_urls py_str id_path xs videos_url = (videos_url', Some e) ->
  exists x, In x xs /\ getpath x id_path = Raise e.
Proof.
  revert videos_url; induction xs as [|x xs IH]; intros videos_url.
  - discriminate.
  - cbn [append_watch_urls].
    destruct (getpath x id_path) as [video_id|e0] eqn:Hx.
    + intros H. destruct (IH _ H) as (y & Hy & He).
      exists y. split; [now right|assumption].
    + intros [= _ <-]. exists x. split; [now left|assumption].
Qed.

(** A list of items either carries the path in every item, or has a
    first item that lacks it. *)
Lemma first_item_lacking (id_path : list key) (xs : list json) :
  (exists ids,
      Forall2 (fun y video_id => getpath y id_path = Ok video_id) xs ids) \/
  (exists pre x post ids e,
      xs = pre ++ x :: post /\
      Forall2 (fun y video_id => getpath y id_path = Ok video_id) pre ids /\
      getpath x id_path = Raise e).
Proof.
  induction xs as [|x xs IH].
  - left. exists []. constructor.
  - destruct (getpath x id_path) as [video_id|e] eqn:Hx.
    + destruct IH as [(ids & H)|(pre & y & post & ids & e & -> & H & Hy)].
      * left. exists (video_id :: ids). now constructor.
      * right. exists (x :: pre), y, post, (video_id :: ids), e.
        repeat split; [now constructor|assumption].
    + right. exists [], x, xs, [], e. repeat split; [constructor|assumption].
Qed.

(** The two ways the loops of lines 266-280 can end without raising:
    the first loop runs through, or it stops at its first item without
    a full-video identifier and the second loop runs through. *)
Lemma collect_watch_urls_returns (videos : json) (videos_url : list string) :
  collect_watch_urls py_str videos = Ok videos_url ->
  exists xs,
    py_iter videos = Ok xs /\
    ((exists video_ids,
         Forall2 is_video_item xs video_ids /\
         videos_url = map (watch_url py_str) video_ids) \/
     (exists pre x post video_ids reel_ids,
         xs = pre ++ x :: post /\
         Forall2 is_video_item pre video_ids /\
         lacks video_id_path x /\
         Forall2 (fun y video_id => getpath y reel_id_path = Ok video_id)
           xs reel_ids /\
         videos_url = map (watch_url py_str) video_ids
                      ++ map (watch_url py_str) reel_ids)).
Proof.
  unfold collect_watch_urls, for_append.
  destruct (py_iter videos) as [xs|e0] eqn:Hi.
  - intros H. exists xs. split; [reflexivity|].
    destruct (first_item_lacking video_id_path xs)
      as [(vids & Hv)|(pre & x & post & vids & e & -> & Hv & Hx)].
    + left. exists vids. split; [exact Hv|].
      rewrite (append_all py_str _ _ _ [] Hv) in H. now injection H as <-.
    + right.
      rewrite (append_until _ pre post x vids [] e Hv Hx) in H.
      rewrite (getpath_lookup_error _ _ _ Hx) in H. cbn [app] in H.
      destruct (first_item_lacking reel_id_path (pre ++ x :: post))
        as [(rids & Hr)|(pre' & x' & post' & rids & e' & E & Hr & Hx')].
      * exists pre, x, post, vids, rids.
        rewrite (append_all py_str _ _ _ _ Hr) in H. injection H as <-.
        repeat split; try assumption. now exists e.
      * rewrite E in H.
        rewrite (append_until _ pre' post' x' rids _ e' Hr Hx') in H.
        discriminate.
  - assert (e0 = TypeError) as ->
      by (destruct videos; cbn in Hi; try discriminate; now injection Hi).
    discriminate.
Qed.

(** The empty page comes with its one log record. *)
Lemma locate_not_found_logged (self self' : Channel) (doc : json)
  (records : list exn) :
  locate self doc = (Ok NotFound, self', records) -> exists p, records = [p].
Proof.
  unfold locate, locate_continuation.
  destruct (full_page self doc) as [[v vd]|e]; [discriminate|].
  destruct (lookup_error e); [|discriminate].
  destruct (getpath doc wrapped_path) as [v|e1]; [discriminate|].
  destruct (lookup_error e1); [|discriminate].
  destruct (getpath doc bare_path) as [v|p]; [discriminate|].
  destruct (lookup_error p); [|discriminate].
  intros [= _ <-]. now exists p.
Qed.

End LoopFacts.

(** ** The page of videos *)

Lemma extract_located_videos (py_str : json -> string)
  (items ids : list json) (marker token : json) :
  Forall2 is_video_item items ids ->
  getpath marker continuation_path = Ok token ->
  extract_located py_str (JList (items ++ [marker])) =
  Ok (uniqueify (map (watch_url py_str) ids), token).
Proof.
  intros Hv Ht. unfold extract_located.
  rewrite (take_continuation_marker items marker token Ht). cbn [bind].
  unfold collect_watch_urls, for_append. cbn [py_iter].
  now rewrite (append_all py_str video_id_path items ids [] Hv).
Qed.

(** X1: a located list of full-video items followed by a continuation
    marker gives the watch urls of the items, in order and without
    repeats, together with the marker's token. *)
Theorem video_page_with_marker (py_str : json -> string)
  (self self' : Channel) (doc marker token : json) (records : list exn)
  (items ids : list json) :
  locate self doc = (Ok (Found (JList (items ++ [marker]))), self', records) ->
  Forall2 is_video_item items ids ->
  getpath marker continuation_path = Ok token ->
  returned (_extract_videos py_str self doc) =
  Ok (uniqueify (map (watch_url py_str) ids), token).
Proof.
  intros Hl Hv Ht.
  rewrite (extract_videos_found py_str _ _ _ _ _ Hl). cbn [returned].
  now apply extract_located_videos.
Qed.

Lemma video_page_with_marker_witness :
  returned (_extract_videos no_text sample_channel full_page_sample) =
  Ok (["/watch?v=a"; "/watch?v=b"], JStr "next").
Proof.
  apply (video_page_with_marker no_text sample_channel
           (set_visitor_data (JStr "visitor") sample_channel)
           full_page_sample (continuation_renderer (JStr "next"))
           (JStr "next") []
           [video_renderer (JStr "a"); video_renderer (JStr "b");
            video_renderer (JStr "a")]
           [JStr "a"; JStr "b"; JStr "a"]).
  - reflexivity.
  - repeat constructor.
  - reflexivity.
Defined.

(** X2: the urls the first loop appended before it failed stay in the
    list the second loop appends to: when the items before [x] carry a
    full-video identifier, [x] does not, and every item carries a
    short-form identifier, the call returns the full-video urls of the
    items before [x] followed by the short-form urls of all the items,
    without repeats. *)
Theorem switch_keeps_first_urls (py_str : json -> string)
  (self self' : Channel) (doc videos continuation x : json)
  (records : list exn) (pre post video_ids reel_ids : list json) :
  locate self doc = (Ok (Found videos), self', records) ->
  take_continuation videos = Ok (continuation, JList (pre ++ x :: post)) ->
  Forall2 is_video_item pre video_ids ->
  lacks video_id_path x ->
  Forall2 (fun y video_id => getpath y reel_id_path = Ok video_id)
    (pre ++ x :: post) reel_ids ->
  returned (_extract_videos py_str self doc) =
  Ok (uniqueify (map (watch_url py_str) video_ids
                 ++ map (watch_url py_str) reel_ids), continuation).
Proof.
  intros Hl Hc Hv [e Hx] Hr.
  rewrite (extract_videos_found py_str _ _ _ _ _ Hl). cbn [returned].
  unfold extract_located. rewrite Hc. cbn [bind].
  unfold collect_watch_urls, for_append. cbn [py_iter].
  rewrite (append_until py_str video_id_path pre post x video_ids [] e Hv Hx).
  rewrite (getpath_lookup_error _ _ _ Hx).
  now rewrite (append_all py_str reel_id_path _ reel_ids _ Hr).
Qed.

Lemma switch_keeps_first_urls_witness :
  returned (_extract_videos no_text sample_channel response_of_mixed_items) =
  Ok (["/watch?v=v"; "/watch?v=r"; "/watch?v=s"], JNull).
Proof.
  apply (switch_keeps_first_urls no_text sample_channel sample_channel
           response_of_mixed_items
           (JList [double_renderer (JStr "v") (JStr "r");
                   reel_renderer (JStr "s")])
           JNull (reel_renderer (JStr "s")) []
           [double_renderer (JStr "v") (JStr "r")] []
           [JStr "v"] [JStr "r"; JStr "s"]).
  - reflexivity.
  - reflexivity.
  - repeat constructor.
  - exists KeyError. reflexivity.
  - repeat constructor.
Defined.

(** ** What a call can return, log and raise *)

(** X3: whatever the document, a pair the call returns comes about in
    one of three ways and no url gets into it otherwise.  Either the
    call left by the empty page, with its log record; or the list is
    [uniqueify] of the urls the loops collected from the items that
    remain once the marker is off: the watch urls of the full-video
    identifiers of all the items, in order, or those of the items
    before the first item without one, followed by the watch urls of
    the short-form identifiers of all the items. *)
Theorem returned_urls_come_from_items (py_str : json -> string)
  (self : Channel) (doc continuation : json) (ids : list string) :
  returned (_extract_videos py_str self doc) = Ok (ids, continuation) ->
  (exists p,
      logged (_extract_videos py_str self doc) = [p] /\
      ids = [] /\ continuation = JNull) \/
  (exists videos rest xs videos_url,
      fst (fst (locate self doc)) = Ok (Found videos) /\
      take_continuation videos = Ok (continuation, rest) /\
      py_iter rest = Ok xs /\
      ids = uniqueify videos_url /\
      ((exists video_ids,
           Forall2 is_video_item xs video_ids /\
           videos_url = map (watch_url py_str) video_ids) \/
       (exists pre x post video_ids reel_ids,
           xs = pre ++ x :: post /\
           Forall2 is_video_item pre video_ids /\
           lacks video_id_path x /\
           Forall2 (fun y video_id => getpath y reel_id_path = Ok video_id)
             xs reel_ids /\
           videos_url = map (watch_url py_str) video_ids
                        ++ map (watch_url py_str) reel_ids))).
Proof.
  unfold _extract_videos.
  destruct (locate self doc) as [[[[videos|]|e] self'] records] eqn:Hl;
    cbn [returned logged fst].
  - unfold extract_located.
    destruct (take_continuation videos) as [[c rest]|e] eqn:Ht;
      [|discriminate].
    cbn [bind].
    destruct (collect_watch_urls py_str rest) as [videos_url|e] eqn:Hc;
      [|discriminate].
    cbn [bind]. intros [= <- <-]. right.
    destruct (collect_watch_urls_returns py_str rest videos_url Hc)
      as (xs & Hi & Hways).
    exists videos, rest, xs, videos_url.
    split; [reflexivity|]. split; [exact Ht|]. split; [exact Hi|].
    split; [reflexivity|exact Hways].
  - intros [= <- <-]. left.
    destruct (locate_not_found_logged _ _ _ _ Hl) as [p ->].
    now exists p.
  - discriminate.
Qed.

Lemma returned_urls_come_from_items_witness :
  (exists p,
      logged (_extract_videos no_text sample_channel response_of_mixed_items)
      = [p] /\
      ["/watch?v=v"; "/watch?v=r"; "/watch?v=s"] = [] /\ JNull = JNull) \/
  (exists videos rest xs videos_url,
      fst (fst (locate sample_channel response_of_mixed_items))
      = Ok (Found videos) /\
      take_continuation videos = Ok (JNull, rest) /\
      py_iter rest = Ok xs /\
      ["/watch?v=v"; "/watch?v=r"; "/watch?v=s"] = uniqueify videos_url /\
      ((exists video_ids,
           Forall2 is_video_item xs video_ids /\
           videos_url = map (watch_url no_text) video_ids) \/
       (exists pre x post video_ids reel_ids,
           xs = pre ++ x :: post /\
           Forall2 is_video_item pre video_ids /\
           lacks video_id_path x /\
           Forall2 (fun y video_id => getpath y reel_id_path = Ok video_id)
             xs reel_ids /\
           videos_url = map (watch_url no_text) video_ids
                        ++ map (watch_url no_text) reel_ids))).
Proof.
  apply (returned_urls_come_from_items no_text sample_channel
           response_of_mixed_items JNull
           ["/watch?v=v"; "/watch?v=r"; "/watch?v=s"]).
  reflexivity.
Defined.

(** X4: a call logs at most one record, and it logs one only on the
    way to the empty page: the record is the lookup error of the last
    attempt, the call returns [([], None)] and the object is as it
    was. *)
Theorem logs_only_the_empty_page (py_str : json -> string) (self : Channel)
  (doc : json) :
  logged (_extract_videos py_str self doc) = [] \/
  exists p,
    logged (_extract_videos py_str self doc) = [p] /\
    getpath doc bare_path = Raise p /\
    lookup_error p = true /\
    returned (_extract_videos py_str self doc) = Ok ([], JNull) /\
    self_after (_extract_videos py_str self doc) = self.
Proof.
  unfold _extract_videos, locate.
  destruct (full_page self doc) as [[videos visitor_data]|e]; [now left|].
  destruct (lookup_error e); [|now left].
  unfold locate_continuation.
  destruct (getpath doc wrapped_path) as [v|e1]; [now left|].
  destruct (lookup_error e1); [|now left].
  destruct (getpath doc bare_path) as [v|p] eqn:Hb; [now left|].
  rewrite (getpath_lookup_error _ _ _ Hb).
  right. exists p. repeat split. eapply getpath_lookup_error; eauto.
Qed.

(** A chain of [str] subscripts ends in [KeyError] or [TypeError]
    when it raises. *)
Lemma getpath_names_raises (names : list string) (v : json) (e : exn) :
  getpath v (map K names) = Raise e -> e = KeyError \/ e = TypeError.
Proof.
  revert v; induction names as [|name names IH]; intros v; [discriminate|].
  cbn [map getpath].
  destruct (getitem v (K name)) as [x|e0] eqn:E; cbn [bind].
  - apply IH.
  - intros [= <-]. destruct v; cbn in E; try (injection E as <-; tauto).
    destruct (assoc name fields); [discriminate|].
    injection E as <-; tauto.
Qed.

Lemma take_continuation_raises (videos : json) (e : exn) :
  take_continuation videos = Raise e -> e = TypeError.
Proof.
  unfold take_continuation.
  destruct (getitem videos (I (-1))) as [last|e0] eqn:E0; cbn [bind].
  - destruct (getpath last continuation_path) as [token|e1] eqn:E1;
      cbn [bind].
    + destruct (drop_last videos) as [rest|e2] eqn:E2; cbn [bind];
        [discriminate|].
      destruct videos; cbn in E2; try discriminate;
        injection E2 as <-; now intros [= <-].
    + pose proof (getpath_lookup_error _ _ _ E1) as L.
      destruct e1; cbn; try discriminate; now intros [= <-].
  - pose proof (getitem_lookup_error _ _ _ E0) as L.
    destruct e0; cbn; try discriminate; now intros [= <-].
Qed.

Lemma for_append_raises (py_str : json -> string) (names : list string)
  (videos : json) (videos_url videos_url' : list string) (e : exn) :
  for_append py_str (map K names) videos videos_url = (videos_url', Some e) ->
  e = KeyError \/ e = TypeError.
Proof.
  unfold for_append. destruct (py_iter videos) as [xs|e0] eqn:E.
  - intros H. apply append_watch_urls_raised in H as (x & _ & Hx).
    eapply getpath_names_raises; eauto.
  - intros [= _ <-]. destruct videos; cbn in E; try discriminate;
      injection E as <-; tauto.
Qed.

Lemma collect_watch_urls_raises (py_str : json -> string) (videos : json)
  (e : exn) :
  collect_watch_urls py_str videos = Raise e -> e = KeyError \/ e = TypeError.
Proof.
  unfold collect_watch_urls.
  destruct (for_append py_str video_id_path videos []) as [acc [e1|]] eqn:E1;
    [|discriminate].
  apply (for_append_raises py_str
           ["richItemRenderer"; "content"; "videoRenderer"; "videoId"])
    in E1.
  destruct (lookup_error e1) eqn:L; [|now intros [= <-]].
  destruct (for_append py_str reel_id_path videos acc) as [acc' [e2|]] eqn:E2;
    [|discriminate].
  intros [= <-].
  apply (for_append_raises py_str
           ["richItemRenderer"; "content"; "reelItemRenderer"; "videoId"])
    in E2.
  exact E2.
Qed.

Lemma extract_located_raises (py_str : json -> string) (videos : json)
  (e : exn) :
  extract_located py_str videos = Raise e -> e = KeyError \/ e = TypeError.
Proof.
  unfold extract_located.
  destruct (take_continuation videos) as [[c rest]|e1] eqn:Ht; cbn [bind].
  - destruct (collect_watch_urls py_str rest) as [urls|e2] eqn:Hc;
      cbn [bind]; [discriminate|].
    intros [= <-]. eapply collect_watch_urls_raises; eauto.
  - intros [= <-]. apply take_continuation_raises in Ht. tauto.
Qed.

(** X5: a call never raises [IndexError]: what it raises is
    [KeyError] or [TypeError], out of the search for the marker and the
    identifiers, or [AttributeError], and that only when the search
    for the active tab raised it. *)
Theorem raises_no_index_error (py_str : json -> string) (self : Channel)
  (doc : json) (e : exn) :
  returned (_extract_videos py_str self doc) = Raise e ->
  e <> IndexError /\
  (e = AttributeError -> full_page self doc = Raise AttributeError).
Proof.
  assert (Hx : forall v, extract_located py_str v = Raise e ->
                         e <> IndexError /\
                         (e = AttributeError ->
                          full_page self doc = Raise AttributeError)).
  { intros v H. apply extract_located_raises in H.
    destruct H; subst; split; discriminate. }
  unfold _extract_videos, locate.
  destruct (full_page self doc) as [[videos visitor_data]|e0] eqn:Hf;
    [apply Hx|].
  destruct (lookup_error e0) eqn:L0.
  - unfold locate_continuation.
    destruct (getpath doc wrapped_path) as [v|e1] eqn:Hw; [apply Hx|].
    rewrite (getpath_lookup_error _ _ _ Hw).
    destruct (getpath doc bare_path) as [v|p] eqn:Hb; [apply Hx|].
    rewrite (getpath_lookup_error _ _ _ Hb). discriminate.
  - cbn [returned]. intros [= <-].
    destruct e0; try discriminate. split; [discriminate|reflexivity].
Qed.

Lemma raises_no_index_error_witness :
  AttributeError <> IndexError /\
  (AttributeError = AttributeError ->
   full_page sample_channel page_with_null_url = Raise AttributeError).
Proof.
  apply (raises_no_index_error no_text sample_channel page_with_null_url).
  reflexivity.
Defined.

(** ** Calling twice *)

Lemma find_active_tab_html_url (self1 self2 : Channel) (tabs : list json) :
  html_url self1 = html_url self2 ->
  find_active_tab self1 tabs = find_active_tab self2 tabs.
Proof.
  intros H. induction tabs as [|tab tabs IH]; [reflexivity|].
  cbn [find_active_tab]. rewrite H, IH. reflexivity.
Qed.

Lemma full_page_html_url (self1 self2 : Channel) (doc : json) :
  html_url self1 = html_url self2 ->
  full_page self1 doc = full_page self2 doc.
Proof.
  intros H. unfold full_page, active_grid.
  destruct (getpath doc tabs_path) as [tabs|e]; [|reflexivity]. cbn [bind].
  destruct (py_iter tabs) as [l|e]; [|reflexivity]. cbn [bind].
  now rewrite (find_active_tab_html_url self1 self2 l H).
Qed.

(** X6: a second call on the same document returns, logs and leaves
    behind exactly what the first call did: the visitor data the first
    call stored changes nothing in the outcome of the second. *)
Theorem extract_videos_twice (py_str : json -> string) (self : Channel)
  (doc : json) :
  _extract_videos py_str (self_after (_extract_videos py_str self doc)) doc =
  _extract_videos py_str self doc.
Proof.
  rewrite extract_videos_self_after.
  destruct (full_page self doc) as [[videos visitor_data]|e] eqn:Hf.
  - unfold _extract_videos, locate.
    rewrite (full_page_html_url (set_visitor_data visitor_data self) self doc
               eq_refl), Hf.
    reflexivity.
  - now rewrite set_visitor_data_same.
Qed.

(** ** The active tab *)

Lemma find_first_match (self : Channel) (pre post : list json)
  (tab : json) (url segment : string) :
  last_segment (JStr (html_url self)) = Ok segment ->
  Forall (other_tab segment) pre ->
  getpath tab tab_url_path = Ok (JStr url) ->
  last_segment (JStr url) = Ok segment ->
  find_active_tab self (pre ++ tab :: post) = Ok tab.
Proof.
  intros Hs Hpre Hu Hseg.
  induction Hpre as [|t pre (u & here & Ht & Hh & Hne) _ IH].
  - cbn [app find_active_tab]. rewrite Hu. cbn [bind].
    rewrite Hseg. cbn [bind]. rewrite Hs. cbn [bind].
    now rewrite String.eqb_refl.
  - cbn [app find_active_tab]. rewrite Ht. cbn [bind].
    rewrite Hh. cbn [bind]. rewrite Hs. cbn [bind].
    apply String.eqb_neq in Hne. now rewrite Hne.
Qed.

(** X7: the active tab is the first tab whose url ends in the segment
    [html_url] ends in, and the grid read is the grid of that tab; the
    tabs after it are not looked at, whatever they hold. *)
Theorem first_matching_tab_wins (self : Channel) (pre post : list json)
  (tab : json) (url segment : string) :
  last_segment (JStr (html_url self)) = Ok segment ->
  Forall (other_tab segment) pre ->
  getpath tab tab_url_path = Ok (JStr url) ->
  last_segment (JStr url) = Ok segment ->
  find_active_tab self (pre ++ tab :: post) = Ok tab /\
  (forall doc,
      getpath doc tabs_path = Ok (JList (pre ++ tab :: post)) ->
      active_grid self doc = getpath tab grid_path).
Proof.
  intros Hs Hpre Hu Hseg.
  pose proof (find_first_match self pre post tab url segment Hs Hpre Hu Hseg)
    as Hfind.
  split; [exact Hfind|].
  intros doc Ht. unfold active_grid. rewrite Ht. cbn [bind py_iter].
  now rewrite Hfind.
Qed.

Lemma first_matching_tab_wins_witness :
  find_active_tab sample_channel
    ([tab_renderer (JStr "/c/sample/featured") (JList [])]
     ++ tab_renderer (JStr "/@sample/videos") (JList []) :: [JNull]) =
  Ok (tab_renderer (JStr "/@sample/videos") (JList [])).
Proof.
  refine (proj1 (first_matching_tab_wins sample_channel
           [tab_renderer (JStr "/c/sample/featured") (JList [])] [JNull]
           (tab_renderer (JStr "/@sample/videos") (JList []))
           "/@sample/videos" "videos" _ _ _ _)).
  - reflexivity.
  - constructor; [|constructor].
    exists "/c/sample/featured", "featured".
    split; [reflexivity|split; [reflexivity|discriminate]].
  - reflexivity.
  - reflexivity.
Defined.

Lemma no_tab_matches (self : Channel) (tabs : list json) (segment : string) :
  last_segment (JStr (html_url self)) = Ok segment ->
  Forall (other_tab segment) tabs ->
  find_active_tab self tabs = Ok (JDict []).
Proof.
  intros Hs H.
  induction H as [|t tabs (u & here & Ht & Hh & Hne) _ IH]; [reflexivity|].
  cbn [find_active_tab]. rewrite Ht. cbn [bind].
  rewrite Hh. cbn [bind]. rewrite Hs. cbn [bind].
  apply String.eqb_neq in Hne. now rewrite Hne.
Qed.

(** When the first [try] ends in a lookup error on a [dict], the call
    goes by the later form of a continuation response. *)
Lemma full_page_fails (py_str : json -> string) (self : Channel)
  (fields : list (string * json)) (e : exn) :
  full_page self (JDict fields) = Raise e ->
  lookup_error e = true ->
  self_after (_extract_videos py_str self (JDict fields)) = self /\
  match getpath (JDict fields) bare_path with
  | Ok items =>
      returned (_extract_videos py_str self (JDict fields))
      = extract_located py_str items
      /\ logged (_extract_videos py_str self (JDict fields)) = []
  | Raise p =>
      returned (_extract_videos py_str self (JDict fields)) = Ok ([], JNull)
      /\ logged (_extract_videos py_str self (JDict fields)) = [p]
  end.
Proof.
  intros Hf L. split.
  - rewrite extract_videos_self_after, Hf. apply set_visitor_data_same.
  - unfold _extract_videos, locate, locate_continuation. rewrite Hf, L.
    change (getpath (JDict fields) wrapped_path) with (@Raise json KeyError).
    cbn [lookup_error].
    destruct (getpath (JDict fields) bare_path) as [items|p] eqn:Hb.
    + split; reflexivity.
    + rewrite (getpath_lookup_error _ _ _ Hb). split; reflexivity.
Qed.

(** X8: when the page has tabs and none of them ends in the segment
    [html_url] ends in, [active_tab] stays [{}] and the first [try]
    ends in [KeyError]; the object is left as it was and the document
    is read as a continuation response, which gives [([], None)] with
    a log record unless such a response is found in it. *)
Theorem no_matching_tab (py_str : json -> string) (self : Channel)
  (doc : json) (tabs : list json) (segment : string) :
  getpath doc tabs_path = Ok (JList tabs) ->
  last_segment (JStr (html_url self)) = Ok segment ->
  Forall (other_tab segment) tabs ->
  full_page self doc = Raise KeyError /\
  self_after (_extract_videos py_str self doc) = self /\
  match getpath doc bare_path with
  | Ok items =>
      returned (_extract_videos py_str self doc) = extract_located py_str items
      /\ logged (_extract_videos py_str self doc) = []
  | Raise p =>
      returned (_extract_videos py_str self doc) = Ok ([], JNull)
      /\ logged (_extract_videos py_str self doc) = [p]
  end.
Proof.
  intros Ht Hs Hall.
  assert (Hf : full_page self doc = Raise KeyError).
  { unfold full_page, active_grid. rewrite Ht. cbn [bind py_iter].
    now rewrite (no_tab_matches self tabs segment Hs Hall). }
  split; [exact Hf|].
  destruct (getpath_str_dict _ _ _ _ Ht) as [fields ->].
  now apply full_page_fails with (e := KeyError).
Qed.

Lemma no_matching_tab_witness :
  full_page sample_channel
    (JDict (browse_page [tab_renderer (JStr "/c/sample/about") (JList [])]))
  = Raise KeyError /\
  self_after
    (_extract_videos no_text sample_channel
       (JDict (browse_page [tab_renderer (JStr "/c/sample/about") (JList [])])))
  = sample_channel /\
  returned
    (_extract_videos no_text sample_channel
       (JDict (browse_page [tab_renderer (JStr "/c/sample/about") (JList [])])))
  = Ok ([], JNull) /\
  logged
    (_extract_videos no_text sample_channel
       (JDict (browse_page [tab_renderer (JStr "/c/sample/about") (JList [])])))
  = [KeyError].
Proof.
  apply (no_matching_tab no_text sample_channel
           (JDict (browse_page
                     [tab_renderer (JStr "/c/sample/about") (JList [])]))
           [tab_renderer (JStr "/c/sample/about") (JList [])] "videos").
  - reflexivity.
  - reflexivity.
  - constructor; [|constructor].
    exists "/c/sample/about", "about".
    split; [reflexivity|split; [reflexivity|discriminate]].
Defined.

(** ** The last segment of a url *)

Lemma cut_at_last_none (sep : ascii) (s : string) :
  has_char sep s = false -> cut_at_last sep s = None.
Proof.
  induction s as [|c s IH]; [reflexivity|].
  cbn [has_char cut_at_last]. intros H.
  apply orb_false_iff in H as [Hc Hs]. now rewrite (IH Hs), Hc.
Qed.

Lemma cut_at_last_append (sep : ascii) (front segment : string) :
  has_char sep segment = false ->
  cut_at_last sep (front ++ String sep segment) = Some (front, segment).
Proof.
  intros H. induction front as [|c front IH].
  - cbn [String.append cut_at_last].
    now rewrite (cut_at_last_none sep segment H), Ascii.eqb_refl.
  - cbn [String.append cut_at_last]. now rewrite IH.
Qed.

(** What follows the last slash is the last segment. *)
Lemma last_segment_append (front segment : string) :
  has_char "/"%char segment = false ->
  last_segment (JStr (front ++ String "/"%char segment)) = Ok segment.
Proof.
  intros H. unfold last_segment, rsplit1.
  now rewrite (cut_at_last_append "/"%char front segment H).
Qed.

Lemma fst_set_html_url (value : string) (obj : object) :
  fst (set_html_url value obj) = set__html_url value (fst obj).
Proof.
  destruct obj as [self page]. unfold set_html_url. cbn [fst].
  destruct (String.eqb (_html_url self) value) eqn:E; [|reflexivity].
  apply String.eqb_eq in E. subst value. now destruct self.
Qed.

Lemma html_url_after_set (value : string) (obj : object) :
  html_url (fst (set_html_url value obj)) = value.
Proof.
  destruct obj as [self page]. unfold set_html_url.
  destruct (String.eqb (_html_url self) value) eqn:E; [|reflexivity].
  now apply String.eqb_eq in E.
Qed.

(** X9: on an object made by [__init__], whatever the channel's uri,
    [html_url] ends in the segment "videos"; after [shorts] it ends in
    "shorts", after [live] in "streams" and after [videos] in "videos"
    again: these are the segments the tabs of a page are compared
    with. *)
Theorem new_channel_segments (uri api_key : string) (page : Page) :
  last_segment (JStr (html_url (__init__ uri api_key))) = Ok "videos" /\
  last_segment (JStr (html_url (fst (shorts (__init__ uri api_key, page)))))
  = Ok "shorts" /\
  last_segment (JStr (html_url (fst (live (__init__ uri api_key, page)))))
  = Ok "streams" /\
  last_segment
    (JStr (html_url (fst (videos (shorts (__init__ uri api_key, page))))))
  = Ok "videos".
Proof.
  unfold videos, shorts, live. rewrite !html_url_after_set.
  rewrite fst_set_html_url. cbn [fst __init__ videos_url shorts_url live_url
                                   set__html_url html_url _html_url].
  repeat split; apply last_segment_append; reflexivity.
Qed.

(** ** Moving between the pages *)

(** X10: after the setter [html_url] is the value set, and no other
    attribute of the channel has changed; setting the value the object
    has changes nothing, also in what [Playlist] keeps; setting another
    value drops the page, the parsed data and the three caches; and
    setting a value twice is setting it once. *)
Theorem html_url_setter (value : string) (obj : object) :
  fst (set_html_url value obj) = set__html_url value (fst obj) /\
  html_url (fst (set_html_url value obj)) = value /\
  (html_url (fst obj) = value -> set_html_url value obj = obj) /\
  (html_url (fst obj) <> value ->
   snd (set_html_url value obj) = mkPage None None false false false) /\
  set_html_url value (set_html_url value obj) = set_html_url value obj.
Proof.
  destruct obj as [self page]. unfold set_html_url, html_url. cbn [fst snd].
  destruct (String.eqb (_html_url self) value) eqn:E; cbn [negb fst snd].
  - apply String.eqb_eq in E. rewrite E, String.eqb_refl. cbn [negb].
    repeat split; try tauto. subst value. now destruct self.
  - apply String.eqb_neq in E. cbn [_html_url set__html_url].
    rewrite String.eqb_refl. cbn [negb]. repeat split. tauto.
Qed.

Section RequestFacts.

Variable World : Type.
Variable request_get : string -> World -> string * World.

(** X11: once [html] has given a page that is not empty, it gives the
    same page again without a request and without a change of the
    object; an empty page is not kept as an answer: the next access
    requests the url again. *)
Theorem html_requested_once (obj obj' : object) (w w' : World)
  (text : string) :
  html World request_get obj w = (text, obj', w') ->
  forall w2,
    html World request_get obj' w2 =
    match text with
    | EmptyString =>
        let (again, w3) := request_get (html_url (fst obj)) w2 in
        (again,
         (fst obj',
          mkPage (Some again) (_initial_data (snd obj'))
            (video_urls_cached (snd obj')) (last_updated_cached (snd obj'))
            (title_cached (snd obj'))),
         w3)
    | String _ _ => (text, obj', w2)
    end.
Proof.
  destruct obj as [self page]. unfold html.
  destruct (_html page) as [[|c kept]|] eqn:Hp.
  - destruct (request_get (html_url self) w) as [answer w1].
    intros [= <- <- <-] w2. cbn [_html fst snd].
    destruct answer; reflexivity.
  - intros [= <- <- <-] w2. now rewrite Hp.
  - destruct (request_get (html_url self) w) as [answer w1].
    intros [= <- <- <-] w2. cbn [_html fst snd].
    destruct answer; reflexivity.
Qed.

(** X12: after the setter has moved the object to another url, [html]
    requests that url, whatever page was kept before; moved to the url
    it had, the object keeps its page and [html] makes no request. *)
Theorem html_after_setter (obj : object) (value : string) (w : World) :
  (html_url (fst obj) <> value ->
   fst (fst (html World request_get (set_html_url value obj) w))
   = fst (request_get value w) /\
   snd (html World request_get (set_html_url value obj) w)
   = snd (request_get value w)) /\
  (html_url (fst obj) = value ->
   truthy (_html (snd obj)) = true ->
   html World request_get (set_html_url value obj) w
   = (match _html (snd obj) with Some text => text | None => EmptyString end,
      obj, w)).
Proof.
  destruct obj as [self page]. unfold html_url. cbn [fst snd]. split.
  - intros Hne. unfold set_html_url.
    apply String.eqb_neq in Hne. rewrite Hne. cbn [negb].
    unfold html. cbn [_html html_url _html_url set__html_url].
    destruct (request_get value w) as [answer w1]. split; reflexivity.
  - intros He Ht. unfold set_html_url.
    subst value. rewrite String.eqb_refl. cbn [negb].
    unfold html. destruct (_html page) as [[|c kept]|]; try discriminate.
    reflexivity.
Qed.

(** X13: [playlists_html] changes no attribute but [_playlists_html],
    and once it has given a page that is not empty it gives the same
    page again without a request. *)
Theorem playlists_html_requested_once (self self' : Channel) (w w' : World)
  (text : string) :
  playlists_html World request_get self w = (text, self', w') ->
  self' = set__playlists_html (_playlists_html self') self /\
  (text <> EmptyString ->
   forall w2,
     playlists_html World request_get self' w2 = (text, self', w2)).
Proof.
  unfold playlists_html.
  destruct (_playlists_html self) as [[|c kept]|] eqn:Hp.
  - destruct (request_get (playlists_url self) w) as [answer w1].
    intros [= <- <- <-]. cbn [_playlists_html set__playlists_html].
    split; [reflexivity|].
    intros Hne w2. destruct answer; [tauto|reflexivity].
  - intros [= <- <- <-]. rewrite Hp.
    split; [|reflexivity]. now destruct self; cbn in *; subst.
  - destruct (request_get (playlists_url self) w) as [answer w1].
    intros [= <- <- <-]. cbn [_playlists_html set__playlists_html].
    split; [reflexivity|].
    intros Hne w2. destruct answer; [tauto|reflexivity].
Qed.

End RequestFacts.

Lemma html_requested_once_witness :
  html nat sample_request
    (sample_channel,
     mkPage (Some "page of https://www.youtube.com/c/sample/videos")
       None false false false) 7 =
  ("page of https://www.youtube.com/c/sample/videos",
   (sample_channel,
    mkPage (Some "page of https://www.youtube.com/c/sample/videos")
      None false false false), 7).
Proof.
  apply (html_requested_once nat sample_request
           (sample_channel, mkPage None None false false false)
           (sample_channel,
            mkPage (Some "page of https://www.youtube.com/c/sample/videos")
              None false false false)
           0 1 "page of https://www.youtube.com/c/sample/videos").
  reflexivity.
Defined.

Lemma playlists_html_requested_once_witness :
  playlists_html nat sample_request
    (set__playlists_html
       (Some "page of https://www.youtube.com/c/sample/playlists")
       sample_channel) 7
  = ("page of https://www.youtube.com/c/sample/playlists",
     set__playlists_html
       (Some "page of https://www.youtube.com/c/sample/playlists")
       sample_channel, 7).
Proof.
  refine (proj2 (playlists_html_requested_once nat sample_request
                   sample_channel
                   (set__playlists_html
                      (Some "page of https://www.youtube.com/c/sample/playlists")
                      sample_channel)
                   0 1 "page of https://www.youtube.com/c/sample/playlists"
                   _) _ 7).
  - reflexivity.
  - discriminate.
Defined.

(** ** The channel's metadata *)

(** X14: whenever [channel_name] gives a name, [vanity_url] gives a
    value and does not raise: the url under the key [vanityChannelUrl]
    when the metadata holds the key, [None] when it does not. *)
Theorem vanity_url_with_name (initial_data name : json) :
  channel_name initial_data = Ok name ->
  vanity_url initial_data =
  Ok match getpath initial_data
             [K "metadata"; K "channelMetadataRenderer";
              K "vanityChannelUrl"] with
     | Ok url => url
     | Raise _ => JNull
     end.
Proof.
  unfold channel_name, vanity_url. cbn [getpath].
  destruct (getitem initial_data (K "metadata")) as [m|e]; [|discriminate].
  cbn [bind].
  destruct (getitem m (K "channelMetadataRenderer")) as [r|e]; [|discriminate].
  cbn [bind].
  destruct (getitem r (K "title")) as [t|e] eqn:Ht; [|discriminate].
  apply getitem_str_dict in Ht as [fields ->]. intros _.
  cbn [dict_get getitem]. now destruct (assoc "vanityChannelUrl" fields).
Qed.

Lemma vanity_url_with_name_witness :
  vanity_url
    (JDict [("metadata",
             JDict [("channelMetadataRenderer",
                     JDict [("title", JStr "Sample")])])])
  = Ok JNull.
Proof.
  apply (vanity_url_with_name
           (JDict [("metadata",
                    JDict [("channelMetadataRenderer",
                            JDict [("title", JStr "Sample")])])])
           (JStr "Sample")).
  reflexivity.
Defined.

Lemma getpath_app (v : json) (ks1 ks2 : list key) :
  getpath v (ks1 ++ ks2) = (x <- getpath v ks1 ;; getpath x ks2).
Proof.
  revert v; induction ks1 as [|k ks1 IH]; intros v; [reflexivity|].
  cbn [app getpath]. destruct (getitem v k); cbn [bind]; [apply IH|reflexivity].
Qed.

Lemma py_index_out_of_range {A : Type} (l : list A) (i : Z) :
  (Z.of_nat (List.length l) <= i)%Z -> py_index l i = Raise IndexError.
Proof.
  intros H. unfold py_index.
  destruct (Z.ltb_spec i 0); [lia|].
  destruct (Z.ltb_spec i 0); [lia|].
  destruct (nth_error l (Z.to_nat i)) eqn:E; [|reflexivity].
  assert (Hs : nth_error l (Z.to_nat i) <> None) by congruence.
  apply nth_error_Some in Hs. lia.
Qed.

(** X15: on a page with fewer than two tabs [last_updated] raises
    [IndexError]; the handler takes [KeyError] only, so the property
    does not answer [None] there. *)
Theorem last_updated_needs_two_tabs (obj : object) (initial_data : json)
  (tabs : list json) :
  getpath initial_data tabs_path = Ok (JList tabs) ->
  List.length tabs < 2 ->
  fst (last_updated obj initial_data) = Raise IndexError.
Proof.
  intros Ht Hn. unfold last_updated.
  change last_updated_path
    with (tabs_path ++ I 1 :: skipn 4 last_updated_path).
  rewrite getpath_app, Ht. cbn [bind getpath getitem].
  rewrite py_index_out_of_range by lia. reflexivity.
Qed.

Lemma last_updated_needs_two_tabs_witness :
  fst (last_updated (sample_channel, sample_page)
         (JDict (browse_page
                   [tab_renderer (JStr "/c/sample/videos") (JList [])])))
  = Raise IndexError.
Proof.
  apply (last_updated_needs_two_tabs (sample_channel, sample_page)
           (JDict (browse_page
                     [tab_renderer (JStr "/c/sample/videos") (JList [])]))
           [tab_renderer (JStr "/c/sample/videos") (JList [])]).
  - reflexivity.
  - simpl. lia.
Defined.

(** ** The view count *)

Lemma views_text_lookup (initial_data : json) (tabs : list json) (pos : Z) :
  getpath initial_data tabs_path = Ok (JList tabs) ->
  getpath initial_data (views_text_path pos) =
  (tab <- py_index tabs pos ;; getpath tab tab_views_path).
Proof.
  intros Ht.
  change (views_text_path pos) with (tabs_path ++ I pos :: tab_views_path).
  rewrite getpath_app, Ht. reflexivity.
Qed.

(** In a list of two tabs or more, the index [len - 2] is the tab
    before the last. *)
Lemma py_index_before_last {A : Type} (pre : list A) (a b : A) :
  py_index (pre ++ [a; b]) (Z.of_nat (List.length (pre ++ [a; b])) - 2) = Ok a.
Proof.
  unfold py_index. rewrite length_app. cbn [List.length].
  destruct (Z.ltb_spec (Z.of_nat (List.length pre + 2) - 2) 0); [lia|].
  destruct (Z.ltb_spec (Z.of_nat (List.length pre + 2) - 2) 0); [lia|].
  replace (Z.to_nat (Z.of_nat (List.length pre + 2) - 2))
    with (List.length pre) by lia.
  rewrite nth_error_app2 by lia. now rewrite Nat.sub_diag.
Qed.

Section ViewFacts.

Variable py_int : string -> option Z.

(** What [views] answers when the tab list is [tabs] and the tab at
    [len - 2] is [tab]. *)
Lemma views_of_tab (obj : object) (initial_data tab : json)
  (tabs : list json) :
  getpath initial_data tabs_path = Ok (JList tabs) ->
  py_index tabs (Z.of_nat (List.length tabs) - 2) = Ok tab ->
  fst (views py_int obj initial_data) =
  match (views_text <- getpath tab tab_views_path ;;
         count_text <- first_word views_text ;;
         Ok (remove_char ","%char count_text)) with
  | Ok count_text =>
      match py_int count_text with
      | Some n => Views n
      | None => ViewsValueError
      end
  | Raise KeyError => Views 0
  | Raise e => ViewsRaise e
  end.
Proof.
  intros Ht Hi. unfold views. rewrite Ht. cbn [bind py_len].
  rewrite (views_text_lookup _ _ _ Ht), Hi. cbn [bind].
  destruct (getpath tab tab_views_path) as [views_text|e]; cbn [bind].
  - destruct (first_word views_text) as [count_text|e]; cbn [bind].
    + now destruct (py_int _).
    + now destruct e.
  - now destruct e.
Qed.

(** X16: [views] reads the tab before the last one and nothing else
    of the tab list: two pages that have the same tab in that place
    give the same answer, whatever their other tabs are. *)
Theorem views_reads_tab_before_last (obj : object) (doc1 doc2 about : json)
  (pre1 pre2 : list json) (last1 last2 : json) :
  getpath doc1 tabs_path = Ok (JList (pre1 ++ [about; last1])) ->
  getpath doc2 tabs_path = Ok (JList (pre2 ++ [about; last2])) ->
  fst (views py_int obj doc1) = fst (views py_int obj doc2).
Proof.
  intros H1 H2.
  rewrite (views_of_tab obj doc1 about _ H1 (py_index_before_last _ _ _)).
  rewrite (views_of_tab obj doc2 about _ H2 (py_index_before_last _ _ _)).
  reflexivity.
Qed.

(** X17: on a page without tabs [views] raises [IndexError], which
    its handler does not take; on a page with one tab the position
    [len - 2] is -1 and counts from the end, so that one tab is read
    as the about tab. *)
Theorem views_of_short_tab_lists (obj : object) (initial_data : json) :
  (getpath initial_data tabs_path = Ok (JList []) ->
   fst (views py_int obj initial_data) = ViewsRaise IndexError) /\
  (forall tab doc2 pre last,
      getpath initial_data tabs_path = Ok (JList [tab]) ->
      getpath doc2 tabs_path = Ok (JList (pre ++ [tab; last])) ->
      fst (views py_int obj initial_data) = fst (views py_int obj doc2)).
Proof.
  split.
  - intros Ht. unfold views. rewrite Ht. cbn [bind py_len].
    now rewrite (views_text_lookup _ _ _ Ht).
  - intros tab doc2 pre last H1 H2.
    rewrite (views_of_tab obj initial_data tab _ H1 eq_refl).
    rewrite (views_of_tab obj doc2 tab _ H2 (py_index_before_last _ _ _)).
    reflexivity.
Qed.

(** X18: [views] raises [KeyError] only when the lookup of the tab
    list itself ends in [KeyError]; a key missing below the about tab
    gives 0 instead. *)
Theorem views_key_error (obj : object) (initial_data : json) :
  fst (views py_int obj initial_data) = ViewsRaise KeyError ->
  getpath initial_data tabs_path = Raise KeyError.
Proof.
  unfold views.
  destruct (getpath initial_data tabs_path) as [tabs|e]; cbn [bind].
  - destruct (py_len tabs) as [n|e] eqn:Hl.
    + destruct (_ <- getpath initial_data _ ;; _) as [count_text|e].
      * destruct (py_int count_text); discriminate.
      * destruct e; discriminate.
    + destruct tabs; cbn in Hl; try discriminate;
        injection Hl as <-; discriminate.
  - now intros [= ->].
Qed.

End ViewFacts.

Lemma views_reads_tab_before_last_witness :
  fst (views sample_int (sample_channel, sample_page)
         (JDict (browse_page [JNull; about_tab (JStr "12 views"); JNull])))
  = fst (views sample_int (sample_channel, sample_page)
           (JDict (browse_page [about_tab (JStr "12 views"); JInt 0]))).
Proof.
  apply (views_reads_tab_before_last sample_int (sample_channel, sample_page)
           (JDict (browse_page [JNull; about_tab (JStr "12 views"); JNull]))
           (JDict (browse_page [about_tab (JStr "12 views"); JInt 0]))
           (about_tab (JStr "12 views")) [JNull] [] JNull (JInt 0)).
  - reflexivity.
  - reflexivity.
Defined.

Lemma views_of_short_tab_lists_witness :
  fst (views sample_int (sample_channel, sample_page)
         (JDict (browse_page [])))
  = ViewsRaise IndexError.
Proof.
  apply (proj1 (views_of_short_tab_lists sample_int
                  (sample_channel, sample_page) (JDict (browse_page [])))).
  reflexivity.
Defined.

Lemma views_key_error_witness :
  getpath (JDict []) tabs_path = Raise KeyError.
Proof.
  apply (views_key_error sample_int (sample_channel, sample_page) (JDict [])).
  reflexivity.
Defined.

(** ** The text of the count *)

Lemma has_char_app (c : ascii) (a b : string) :
  has_char c (a ++ b) = has_char c a || has_char c b.
Proof.
  induction a as [|c' a IH]; [reflexivity|].
  cbn [String.append has_char]. now rewrite IH, orb_assoc.
Qed.

Lemma split_on_first (sep : ascii) (word rest : string) :
  has_char sep word = false ->
  split_on sep (word ++ String sep rest) = word :: split_on sep rest.
Proof.
  induction word as [|c word IH]; intros H.
  - cbn [String.append split_on]. now rewrite Ascii.eqb_refl.
  - cbn [has_char] in H. apply orb_false_iff in H as [Hc Hw].
    cbn [String.append split_on]. now rewrite Hc, (IH Hw).
Qed.

(** The first word is what stands before the first space. *)
Lemma first_word_before_space (word rest : string) :
  has_char " "%char word = false ->
  first_word (JStr (word ++ String " "%char rest)) = Ok word.
Proof.
  intros H. unfold first_word. now rewrite (split_on_first _ _ _ H).
Qed.

Lemma remove_char_app (c : ascii) (a b : string) :
  remove_char c (a ++ b) = (remove_char c a ++ remove_char c b)%string.
Proof.
  induction a as [|c' a IH]; [reflexivity|].
  cbn [String.append remove_char].
  destruct (Ascii.eqb c' c); [exact IH|].
  cbn [String.append]. now rewrite IH.
Qed.

Lemma remove_char_absent (c : ascii) (s : string) :
  has_char c s = false -> remove_char c s = s.
Proof.
  induction s as [|c' s IH]; [reflexivity|].
  cbn [has_char remove_char]. intros H.
  apply orb_false_iff in H as [Hc Hs]. now rewrite Hc, (IH Hs).
Qed.

Lemma join_groups_no_space (groups : list string) :
  Forall is_group groups ->
  has_char " "%char (join "," groups) = false.
Proof.
  induction 1 as [|g groups [_ Hg] Hrest IH]; [reflexivity|].
  destruct groups as [|g' groups]; [exact Hg|].
  change (join "," (g :: g' :: groups))
    with (g ++ String ","%char (join "," (g' :: groups)))%string.
  rewrite has_char_app, Hg. cbn [has_char orb]. exact IH.
Qed.

(** Without its commas, a count is its groups put together. *)
Lemma remove_commas_join (groups : list string) :
  Forall is_group groups ->
  remove_char ","%char (join "," groups) = join "" groups.
Proof.
  induction 1 as [|g groups [Hg _] Hrest IH]; [reflexivity|].
  destruct groups as [|g' groups]; [now apply remove_char_absent|].
  change (join "," (g :: g' :: groups))
    with (g ++ String ","%char (join "," (g' :: groups)))%string.
  change (join "" (g :: g' :: groups))
    with (g ++ join "" (g' :: groups))%string.
  rewrite remove_char_app, (remove_char_absent _ _ Hg).
  cbn [remove_char]. rewrite Ascii.eqb_refl. now rewrite IH.
Qed.

(** X19: when the text of the about tab is a count written in groups
    separated by commas, followed by a space and any text, [views] is
    [int] of the groups put together: the commas and what follows the
    first space do not reach [int]. *)
Theorem views_drops_separators (py_int : string -> option Z) (obj : object)
  (initial_data about last : json) (pre : list json)
  (groups : list string) (rest : string) :
  getpath initial_data tabs_path = Ok (JList (pre ++ [about; last])) ->
  getpath about tab_views_path
  = Ok (JStr (join "," groups ++ String " "%char rest)) ->
  Forall is_group groups ->
  fst (views py_int obj initial_data) =
  match py_int (join "" groups) with
  | Some n => Views n
  | None => ViewsValueError
  end.
Proof.
  intros Ht Ha Hg.
  rewrite (views_of_tab py_int obj initial_data about _ Ht
             (py_index_before_last _ _ _)).
  rewrite Ha. cbn [bind].
  rewrite (first_word_before_space _ _ (join_groups_no_space _ Hg)).
  cbn [bind]. now rewrite (remove_commas_join _ Hg).
Qed.

Lemma views_drops_separators_witness :
  fst (views sample_int (sample_channel, sample_page)
         (JDict (browse_page
                   [JNull; about_tab (JStr "1,234,567 views"); JNull])))
  = Views 1234567.
Proof.
  apply (views_drops_separators sample_int (sample_channel, sample_page)
           (JDict (browse_page
                     [JNull; about_tab (JStr "1,234,567 views"); JNull]))
           (about_tab (JStr "1,234,567 views")) JNull [JNull]
           ["1"; "234"; "567"] "views").
  - reflexivity.
  - reflexivity.
  - repeat constructor.
Defined.

(** ** Whole pages *)

(** X20: the last page of a listing: a located list of full-video
    items, none of which has the key [continuationItemRenderer], gives
    the watch urls of its items and no token. *)
Theorem video_page_without_marker (py_str : json -> string)
  (self self' : Channel) (doc : json) (records : list exn)
  (items ids : list json) :
  locate self doc = (Ok (Found (JList items)), self', records) ->
  Forall2 (fun x video_id =>
             is_video_item x video_id /\
             getitem x (K "continuationItemRenderer") = Raise KeyError)
    items ids ->
  returned (_extract_videos py_str self doc) =
  Ok (uniqueify (map (watch_url py_str) ids), JNull).
Proof.
  intros Hl H.
  rewrite (extract_videos_found py_str _ _ _ _ _ Hl). cbn [returned].
  unfold extract_located.
  assert (Hv : Forall2 is_video_item items ids).
  { eapply Forall2_impl; [|exact H]. now intros x i [Hx _]. }
  assert (Ht : take_continuation (JList items) = Ok (JNull, JList items)).
  { destruct (nil_or_last items) as [->|(front & last & ->)];
      [apply take_continuation_nil|].
    apply Forall2_app_inv_l in H as (i1 & i2 & _ & H2 & _).
    inversion H2 as [|? ? ? ? [_ Hk] _]; subst.
    eapply take_continuation_no_marker;
      [apply no_marker_key, Hk|reflexivity]. }
  rewrite Ht. cbn [bind].
  unfold collect_watch_urls, for_append. cbn [py_iter].
  now rewrite (append_all py_str video_id_path items ids [] Hv).
Qed.

Lemma video_page_without_marker_witness :
  returned
    (_extract_videos no_text sample_channel
       (continuation_response
          (JList [video_renderer (JStr "a"); video_renderer (JStr "b")])))
  = Ok (["/watch?v=a"; "/watch?v=b"], JNull).
Proof.
  apply (video_page_without_marker no_text sample_channel sample_channel
           (continuation_response
              (JList [video_renderer (JStr "a"); video_renderer (JStr "b")]))
           []
           [video_renderer (JStr "a"); video_renderer (JStr "b")]
           [JStr "a"; JStr "b"]).
  - reflexivity.
  - repeat constructor.
Defined.

(** X21: a page from the html, from the document to the outcome: when
    the first tab whose url ends in the segment of [html_url] holds a
    grid of full-video items closed by a continuation marker, and the
    page carries visitor data, the call returns the watch urls of the
    items with the marker's token, stores the visitor data and logs
    nothing. *)
Theorem full_page_outcome (py_str : json -> string) (self : Channel)
  (doc tab marker token visitor_data : json) (pre post items ids : list json)
  (url segment : string) :
  getpath doc tabs_path = Ok (JList (pre ++ tab :: post)) ->
  last_segment (JStr (html_url self)) = Ok segment ->
  Forall (other_tab segment) pre ->
  getpath tab tab_url_path = Ok (JStr url) ->
  last_segment (JStr url) = Ok segment ->
  getpath tab grid_path = Ok (JList (items ++ [marker])) ->
  getpath doc visitor_data_path = Ok visitor_data ->
  Forall2 is_video_item items ids ->
  getpath marker continuation_path = Ok token ->
  _extract_videos py_str self doc =
  mkOutcome (Ok (uniqueify (map (watch_url py_str) ids), token))
    (set_visitor_data visitor_data self) [].
Proof.
  intros Ht Hs Hpre Hu Hseg Hg Hvd Hv Hm.
  assert (Hf : full_page self doc
               = Ok (JList (items ++ [marker]), visitor_data)).
  { unfold full_page, active_grid. rewrite Ht. cbn [bind py_iter].
    rewrite (find_first_match self pre post tab url segment Hs Hpre Hu Hseg).
    cbn [bind]. rewrite Hg. cbn [bind]. now rewrite Hvd. }
  unfold _extract_videos, locate. rewrite Hf.
  now rewrite (extract_located_videos py_str items ids marker token Hv Hm).
Qed.

Lemma full_page_outcome_witness :
  _extract_videos no_text sample_channel full_page_sample =
  mkOutcome (Ok (["/watch?v=a"; "/watch?v=b"], JStr "next"))
    (set_visitor_data (JStr "visitor") sample_channel) [].
Proof.
  apply (full_page_outcome no_text sample_channel full_page_sample
           (tab_renderer (JStr "/c/sample/videos")
              (JList [video_renderer (JStr "a"); video_renderer (JStr "b");
                      video_renderer (JStr "a");
                      continuation_renderer (JStr "next")]))
           (continuation_renderer (JStr "next")) (JStr "next")
           (JStr "visitor")
           [tab_renderer (JStr "/c/sample/featured") (JList [])] []
           [video_renderer (JStr "a"); video_renderer (JStr "b");
            video_renderer (JStr "a")]
           [JStr "a"; JStr "b"; JStr "a"]
           "/c/sample/videos" "videos").
  - reflexivity.
  - reflexivity.
  - constructor; [|constructor].
    exists "/c/sample/featured", "featured".
    split; [reflexivity|split; [reflexivity|discriminate]].
  - reflexivity.
  - reflexivity.
  - reflexivity.
  - reflexivity.
  - repeat constructor.
  - reflexivity.
Defined.
